(** * Context-capacity probing scripts of fortemi: model and properties

A shallow embedding of [scripts/smart_context_test.py],
[scripts/context_length_test.py] and [scripts/batch_context_test.py].

- The serving endpoint is the environment: a function from the request a
  script posts to what [requests.post] does with it (a response, or an
  exception).  Within one regime of one model's search every request is
  different (the window or the output budget grows), so every sequence of
  probe outcomes is the behaviour of some endpoint.
- Python integers are [Z]; Python floats are IEEE binary64 values,
  [spec_float] at precision 53, with the operations of [SpecFloat].
  A comparison of an int with a float is exact, as in CPython.
- Exceptions are the left summand of [Py.result].
- Printing, timestamps, the metadata lookup of [get_model_info] and the
  rounded timings stored for display are left out: none of them feeds a
  decision or a capacity field. *)

From Stdlib Require Import ZArith Lia List String Ascii Bool SpecFloat DecimalString.
Import ListNotations.
Local Open Scope Z_scope.

(** ** Binary64 arithmetic *)

Module F64.

Definition prec : Z := 53.
Definition emax : Z := 1024.

(** The double nearest to an integer (ties to even); an infinity when the
    integer is out of range. *)
Definition of_Z (n : Z) : spec_float := binary_normalize prec emax n 0 false.

Definition mul : spec_float -> spec_float -> spec_float := SFmul prec emax.
Definition div : spec_float -> spec_float -> spec_float := SFdiv prec emax.

(** A decimal literal [num/den] denotes the double nearest to that
    quotient; both operands are exact doubles, and [div] rounds correctly. *)
Definition literal (num den : Z) : spec_float := div (of_Z num) (of_Z den).

Definition f0_8 : spec_float := Eval vm_compute in literal 8 10.
Definition f0_85 : spec_float := Eval vm_compute in literal 85 100.
Definition f0_9 : spec_float := Eval vm_compute in literal 9 10.
Definition f1_1 : spec_float := Eval vm_compute in literal 11 10.
Definition zero : spec_float := S754_zero false.

(** Exact comparison of an integer with a double. *)
Definition compare_Z (t : Z) (f : spec_float) : option comparison :=
  match f with
  | S754_nan => None
  | S754_infinity s => Some (if s then Gt else Lt)
  | S754_zero _ => Some (t ?= 0)
  | S754_finite s m e =>
      let v := cond_Zopp s (Zpos m) in
      Some (if 0 <=? e then t ?= v * 2 ^ e else t * 2 ^ (- e) ?= v)
  end.

Definition Z_ltb (t : Z) (f : spec_float) : bool :=
  match compare_Z t f with Some Lt => true | _ => false end.

Definition Z_leb (t : Z) (f : spec_float) : bool :=
  match compare_Z t f with Some (Lt | Eq) => true | _ => false end.

(** Truncation toward zero; nothing for a NaN or an infinity. *)
Definition trunc (f : spec_float) : option Z :=
  match f with
  | S754_nan | S754_infinity _ => None
  | S754_zero _ => Some 0
  | S754_finite s m e =>
      Some (cond_Zopp s (if 0 <=? e then Zpos m * 2 ^ e else Zpos m / 2 ^ (- e)))
  end.

End F64.

(** ** The fragment of Python the scripts use *)

Module Py.

(** Exceptions, by the classes the scripts' handlers can tell apart or
    that their arithmetic can raise.  [str] is the message. *)
Inductive exn : Type :=
| Timeout (msg : string)          (* requests.Timeout *)
| ConnectionError (msg : string)  (* any other failure of the transport *)
| ValueError (msg : string)       (* a body that is not JSON, int(nan) *)
| OverflowError (msg : string).

Definition str (e : exn) : string :=
  match e with
  | Timeout m | ConnectionError m | ValueError m | OverflowError m => m
  end.

Definition is_timeout (e : exn) : bool :=
  match e with Timeout _ => true | _ => false end.

Definition result (A : Type) : Type := (exn + A)%type.
Definition ret {A} (a : A) : result A := inr a.
Definition raise {A} (e : exn) : result A := inl e.
Definition bind {A B} (c : result A) (k : A -> result B) : result B :=
  match c with inl e => inl e | inr a => k a end.

(** [s * k] *)
Definition repeat_str (s : string) (k : Z) : string :=
  String.concat "" (List.repeat s (Z.to_nat k)).

(** [len(s)] *)
Definition len (s : string) : Z := Z.of_nat (String.length s).

(** [s[:k]] *)
Definition prefix (k : nat) (s : string) : string := substring 0 k s.

(** [str(n)] for an int, as an f-string prints it *)
Definition str_of_int (n : Z) : string := NilZero.string_of_int (Z.to_int n).

(** [d.get(key, default)] on an optional entry *)
Definition get (entry : option Z) (default : Z) : Z :=
  match entry with Some v => v | None => default end.

(** [float(n)], also the conversion behind [n * x] and [n / x] *)
Definition float_of_int (n : Z) : result spec_float :=
  match F64.of_Z n with
  | S754_infinity _ => raise (OverflowError "int too large to convert to float")
  | f => ret f
  end.

(** [n * x] for an int [n] and a float [x] *)
Definition int_mul_float (n : Z) (x : spec_float) : result spec_float :=
  bind (float_of_int n) (fun f => ret (F64.mul f x)).

(** [int(x)] *)
Definition int_of_float (x : spec_float) : result Z :=
  match F64.trunc x with
  | Some z => ret z
  | None =>
      match x with
      | S754_nan => raise (ValueError "cannot convert float NaN to integer")
      | _ => raise (OverflowError "cannot convert float infinity to integer")
      end
  end.

(** Whether [p / a] overflows, for ints with [0 < a]: true division is
    correctly rounded and raises when the rounded quotient is out of range. *)
Definition truediv_overflows (p a : Z) : bool :=
  a * (2 ^ 1025 - 2 ^ 971) <=? 2 * Z.abs p.

End Py.

Notation "x <- c ;; k" := (Py.bind c (fun x => k))
  (at level 61, c at next level, right associativity).

(** ** The serving endpoint *)

Module Http.

(** What a script posts to [/api/generate]. *)
Record request : Type := {
  model : string;
  prompt : string;
  num_ctx : option Z;      (* absent: the server default *)
  num_predict : Z;
  timeout : Z
}.

(** The two counters the scripts read from the JSON body, each an integer
    or absent; a body in which a counter is [null] or not an integer lies
    outside this model. *)
Record generate_reply : Type := {
  prompt_eval_count : option Z;
  eval_count : option Z
}.

Record response : Type := {
  status_code : Z;
  text : string;
  json : Py.result generate_reply;   (* [resp.json()] *)
  elapsed : spec_float               (* seconds on the wall clock around the call *)
}.

(** [requests.post], applied to a request: a response or an exception. *)
Definition endpoint : Type := request -> Py.result response.

End Http.

(** ** scripts/smart_context_test.py *)

Module Smart.
  Import Http.

(** The dict [test_context] returns. *)
Inductive probe : Type :=
| Succeeded (input_approx tokens_processed : Z) (truncated : bool)
| Failed (error : string).

Definition success (p : probe) : bool :=
  match p with Succeeded _ _ _ => true | Failed _ => false end.

Section WithEndpoint.
  Variable ep : endpoint.

(** [test_context(model, num_ctx, timeout)] *)
Definition test_context (model : string) (num_ctx timeout : Z) : probe :=
  let prompt := Py.repeat_str "test " (num_ctx / 2) in
  let input_approx := Py.len prompt / 4 in
  let attempt : Py.result probe :=
    resp <- ep {| Http.model := model;
                  prompt := String.append "Summarize: " prompt;
                  num_ctx := Some num_ctx;
                  num_predict := 10;
                  timeout := timeout |} ;;
    if status_code resp =? 200 then
      data <- json resp ;;
      let tokens := Py.get (prompt_eval_count data) 0 in
      limit <- Py.int_mul_float input_approx F64.f0_8 ;;
      Py.ret (Succeeded input_approx tokens (F64.Z_ltb tokens limit))
    else
      Py.ret (Failed (String.append "HTTP " (Py.str_of_int (status_code resp))))
  in
  match attempt with
  | inr p => p
  | inl e => Failed (Py.prefix 50 (Py.str e))
  end.

Definition default_timeout : Z := 300.

(** One entry of [result["tests"]]: the probe with its window. *)
Definition test_record : Type := (probe * Z)%type.

(** The variables of the search loop of [find_native_limit]. *)
Record search : Type := {
  st_tests : list test_record;
  prev_tokens : Z;
  native_limit : Z;
  st_hardware_limit : Z
}.

Definition test_sizes : list Z :=
  [4096; 8192; 16384; 32768; 65536; 131072; 196608].

(** How the loop body classifies a probe; the script prints one message
    for each: [OK], [FAILED], [NATIVE LIMIT FOUND], [PLATEAU]. *)
Inductive verdict : Type :=
| Ok
| HardFailure
| NativeLimitFound
| Plateau.

(** The body of the [for num_ctx in test_sizes] loop. *)
Definition search_step (model : string) (num_ctx : Z) (st : search)
  : Py.result (search * verdict) :=
  let test := test_context model num_ctx default_timeout in
  let tests := st_tests st ++ [(test, num_ctx)] in
  match test with
  | Failed _ =>
      Py.ret ({| st_tests := tests; prev_tokens := prev_tokens st;
                 native_limit := native_limit st;
                 st_hardware_limit := prev_tokens st |}, HardFailure)
  | Succeeded _ tokens truncated =>
      if truncated then
        Py.ret ({| st_tests := tests; prev_tokens := prev_tokens st;
                   native_limit := tokens;
                   st_hardware_limit := st_hardware_limit st |}, NativeLimitFound)
      else
        limit <- Py.int_mul_float (prev_tokens st) F64.f1_1 ;;
        if F64.Z_leb tokens limit && (0 <? prev_tokens st) then
          Py.ret ({| st_tests := tests; prev_tokens := prev_tokens st;
                     native_limit := tokens;
                     st_hardware_limit := st_hardware_limit st |}, Plateau)
        else
          Py.ret ({| st_tests := tests; prev_tokens := tokens;
                     native_limit := tokens;
                     st_hardware_limit := st_hardware_limit st |}, Ok)
  end.

(** The loop, from the state [st] on: every verdict but [Ok] breaks. *)
Fixpoint search_loop (model : string) (sizes : list Z) (st : search)
  : Py.result search :=
  match sizes with
  | [] => Py.ret st
  | num_ctx :: rest =>
      r <- search_step model num_ctx st ;;
      match snd r with
      | Ok => search_loop model rest (fst r)
      | _ => Py.ret (fst r)
      end
  end.

Definition initial : search :=
  {| st_tests := []; prev_tokens := 0; native_limit := 0; st_hardware_limit := 0 |}.


(** [result["hardware_limit"]]: an int, or the string ["not reached"]. *)
Inductive hardware_report : Type :=
| Tokens (n : Z)
| NotReached.

(** The dict [find_native_limit] returns. *)
Record profile : Type := {
  model : string;
  tests : list test_record;
  native_context : Z;
  hardware_limit : hardware_report;
  recommended_input : Z
}.

Definition find_native_limit (model : string) : Py.result profile :=
  st <- search_loop model test_sizes initial ;;
  scaled <- Py.int_mul_float (native_limit st) F64.f0_9 ;;
  recommended <- Py.int_of_float scaled ;;
  Py.ret {| model := model;
            tests := st_tests st;
            native_context := native_limit st;
            hardware_limit :=
              if st_hardware_limit st =? 0 then NotReached
              else Tokens (st_hardware_limit st);
            recommended_input := recommended |}.

(** One entry of the output regime's ["tests"]. *)
Record output_record : Type := {
  rec_num_predict : Z;
  actual_output : Z
}.

(** The dict [test_output_limit] returns. *)
Record output_profile : Type := {
  output_tests : list output_record;
  max_output : Z
}.

(** How one iteration of the output loop ends. *)
Inductive control : Type :=
| Break
| Continue (new_max_output : Z).

Definition output_prompt : string :=
  "Write a very long detailed technical document. Include many sections, subsections, and detailed explanations. Continue until you reach your maximum. Section 1:".

(** The body of the loop of [test_output_limit], which sits in one [try]:
    an exception, wherever raised, breaks out of the loop, and a record
    already appended stays. *)
Definition output_step (model : string) (num_ctx num_predict : Z)
    (st : output_profile) : list output_record * control :=
  let before_append : Py.result (option Z) :=
    resp <- ep {| Http.model := model;
                  prompt := output_prompt;
                  num_ctx := Some num_ctx;
                  num_predict := num_predict;
                  timeout := 600 |} ;;
    if status_code resp =? 200 then
      data <- json resp ;;
      let output_tokens := Py.get (eval_count data) 0 in
      (* tok_per_sec: output_tokens / elapsed if elapsed > 0 *)
      _ <- (if SFltb F64.zero (elapsed resp)
            then Py.float_of_int output_tokens
            else Py.ret F64.zero) ;;
      Py.ret (Some output_tokens)
    else Py.ret None
  in
  match before_append with
  | inl _ | inr None => (output_tests st, Break)
  | inr (Some output_tokens) =>
      let tests :=
        output_tests st ++
          [{| rec_num_predict := num_predict; actual_output := output_tokens |}] in
      let stop : Py.result bool :=
        if output_tokens <? num_predict then
          limit <- Py.int_mul_float (max_output st) F64.f1_1 ;;
          Py.ret (F64.Z_leb output_tokens limit)
        else Py.ret false
      in
      match stop with
      | inl _ | inr true => (tests, Break)
      | inr false => (tests, Continue (Z.max (max_output st) output_tokens))
      end
  end.

Definition output_budgets : list Z := [1024; 2048; 4096; 8192; 16384].

Fixpoint output_loop (model : string) (num_ctx : Z) (budgets : list Z)
    (st : output_profile) : output_profile :=
  match budgets with
  | [] => st
  | num_predict :: rest =>
      match output_step model num_ctx num_predict st with
      | (tests, Break) =>
          {| output_tests := tests; max_output := max_output st |}
      | (tests, Continue m) =>
          output_loop model num_ctx rest
            {| output_tests := tests; max_output := m |}
      end
  end.

Definition test_output_limit (model : string) (num_ctx : Z) : output_profile :=
  output_loop model num_ctx output_budgets
    {| output_tests := []; max_output := 0 |}.

(** The dict [test_model_complete] returns: the profile with its
    ["output"] entry. *)
Record complete_profile : Type := {
  context : profile;
  output : output_profile
}.

Definition test_model_complete (model : string) : Py.result complete_profile :=
  result <- find_native_limit model ;;
  let ctx := Z.min (native_context result) 131072 in
  Py.ret {| context := result; output := test_output_limit model ctx |}.

(** One entry of [all_results]. *)
Inductive entry : Type :=
| Tested (r : complete_profile)
| Errored (model error : string).

(** The body of the per-model loop of [main], over any per-model test:
    the result, or the record the handler builds from the exception. *)
Definition run_one (test : string -> Py.result complete_profile)
    (model : string) : entry :=
  match test model with
  | inr result => Tested result
  | inl e => Errored model (Py.str e)
  end.

(** The per-model loop of [main]. *)
Fixpoint run_models (test : string -> Py.result complete_profile)
    (models : list string) (all_results : list entry) : list entry :=
  match models with
  | [] => all_results
  | model :: rest => run_models test rest (all_results ++ [run_one test model])
  end.

(** [main], on the arguments after the script's name. *)
Definition main (argv : list string) : list entry :=
  let models := match argv with [] => ["gpt-oss:20b"%string] | _ => argv end in
  run_models test_model_complete models [].

End WithEndpoint.

End Smart.

(** ** scripts/context_length_test.py *)

Module CtxLen.
  Import Http.

Definition newline : string := String "010" EmptyString.

(** [count_tokens_approx(text)] *)
Definition count_tokens_approx (text : string) : Z := Py.len text / 4.

Definition base : string := "The quick brown fox jumps over the lazy dog. ".

(** [generate_test_prompt(target_tokens)] *)
Definition generate_test_prompt (target_tokens : Z) : string :=
  let repeats := Z.max 1 (target_tokens / 12) in
  let padding := Py.repeat_str base repeats in
  String.concat ""
    ["Please summarize the following text in 2-3 sentences:"%string;
     newline; newline; padding; newline; newline; "Summary:"%string].

(** The dict [test_single_context] returns. *)
Inductive outcome : Type :=
| Succeeded (target_tokens actual_tokens_approx : Z) (num_ctx : option Z)
            (prompt_eval_count eval_count : Z) (truncated : bool)
| Failed (target_tokens : Z) (num_ctx : option Z) (error : string).

Section WithEndpoint.
  Variable ep : endpoint.

(** [test_single_context(model_name, target_tokens, num_ctx, timeout)] *)
Definition test_single_context (model_name : string) (target_tokens : Z)
    (num_ctx : option Z) (timeout : Z) : outcome :=
  let prompt := generate_test_prompt target_tokens in
  let actual_tokens := count_tokens_approx prompt in
  let attempt : Py.result outcome :=
    resp <- ep {| Http.model := model_name;
                  prompt := prompt;
                  num_ctx := num_ctx;
                  num_predict := 100;
                  timeout := timeout |} ;;
    if status_code resp =? 200 then
      data <- json resp ;;
      let prompt_eval := Py.get (Http.prompt_eval_count data) 0 in
      limit <- Py.int_mul_float actual_tokens F64.f0_9 ;;
      let truncated := F64.Z_ltb prompt_eval limit in
      (* utilization: prompt_eval / actual_tokens * 100 if actual_tokens > 0 *)
      if (0 <? actual_tokens) && Py.truediv_overflows prompt_eval actual_tokens then
        Py.raise (Py.OverflowError "integer division result too large for a float")
      else
        Py.ret (Succeeded target_tokens actual_tokens num_ctx prompt_eval
                  (Py.get (Http.eval_count data) 0) truncated)
    else
      Py.ret (Failed target_tokens num_ctx
                (String.concat ""
                   ["HTTP "%string; Py.str_of_int (status_code resp); ": "%string;
                    Py.prefix 200 (text resp)]))
  in
  match attempt with
  | inr r => r
  | inl e =>
      if Py.is_timeout e then
        Failed target_tokens num_ctx
          (String.concat "" ["Timeout after "%string; Py.str_of_int timeout; "s"%string])
      else Failed target_tokens num_ctx (Py.str e)
  end.

Definition test_sizes : list Z := [2000; 4000; 8000; 16000].
Definition num_ctx_values : list Z := [8192; 16384; 32768; 65536; 131072].

(** Phase 1, the loop over [test_sizes]: the tests so far and
    [default_max]. *)
Fixpoint phase1 (model_name : string) (timeout : Z) (sizes : list Z)
    (tests : list outcome) (default_max : Z) : list outcome * Z :=
  match sizes with
  | [] => (tests, default_max)
  | size :: rest =>
      let result := test_single_context model_name size None timeout in
      let tests := tests ++ [result] in
      match result with
      | Succeeded _ _ _ prompt_eval _ truncated =>
          if negb truncated then phase1 model_name timeout rest tests prompt_eval
          else (tests, default_max)
      | Failed _ _ _ => (tests, default_max)
      end
  end.

(** The variables of the Phase 2 loop. *)
Record extended : Type := {
  ext_tests : list outcome;
  max_with_numctx : Z;
  best_numctx : option Z
}.

(** Phase 2, the loop over [num_ctx_values]. *)
Fixpoint phase2 (model_name : string) (timeout : Z) (windows : list Z)
    (st : extended) : Py.result extended :=
  match windows with
  | [] => Py.ret st
  | num_ctx :: rest =>
      scaled <- Py.int_mul_float num_ctx F64.f0_9 ;;
      test_size <- Py.int_of_float scaled ;;
      let result := test_single_context model_name test_size (Some num_ctx) timeout in
      let tests := ext_tests st ++ [result] in
      match result with
      | Succeeded _ _ _ prompt_eval _ _ =>
          if max_with_numctx st <? prompt_eval then
            phase2 model_name timeout rest
              {| ext_tests := tests; max_with_numctx := prompt_eval;
                 best_numctx := Some num_ctx |}
          else
            limit <- Py.int_mul_float (max_with_numctx st) F64.f1_1 ;;
            if F64.Z_leb prompt_eval limit then
              Py.ret {| ext_tests := tests; max_with_numctx := max_with_numctx st;
                        best_numctx := best_numctx st |}
            else
              phase2 model_name timeout rest
                {| ext_tests := tests; max_with_numctx := max_with_numctx st;
                   best_numctx := best_numctx st |}
      | Failed _ _ _ =>
          Py.ret {| ext_tests := tests; max_with_numctx := max_with_numctx st;
                    best_numctx := best_numctx st |}
      end
  end.

(** The dict [find_max_context] returns. *)
Record results : Type := {
  model : string;
  default_context : Z;
  max_context_with_num_ctx : Z;
  optimal_num_ctx : option Z;
  recommended_context : Z;
  tests : list outcome
}.

Definition find_max_context (model_name : string) (timeout : Z)
  : Py.result results :=
  let '(tests1, default_max) := phase1 model_name timeout test_sizes [] 0 in
  st <- phase2 model_name timeout num_ctx_values
          {| ext_tests := tests1; max_with_numctx := default_max;
             best_numctx := None |} ;;
  scaled <- Py.int_mul_float (max_with_numctx st) F64.f0_8 ;;
  recommended <- Py.int_of_float scaled ;;
  Py.ret {| model := model_name;
            default_context := default_max;
            max_context_with_num_ctx := max_with_numctx st;
            optimal_num_ctx := best_numctx st;
            recommended_context := recommended;
            tests := ext_tests st |}.

Definition default_timeout : Z := 180.

End WithEndpoint.

End CtxLen.

(** ** scripts/batch_context_test.py *)

Module Batch.
  Import Http.

(** The tuple [test_context] returns, without the elapsed time:
    [(True, tokens, _)] or [(False, error, 0)]. *)
Inductive probe : Type :=
| Succeeded (tokens : Z)
| Failed (error : string).

(** One entry of [result["tests"]]. *)
Record test_record : Type := {
  rec_num_ctx : Z;
  rec_outcome : probe
}.

(** The dict [find_max_context] returns. *)
Record result : Type := {
  model : string;
  tests : list test_record;
  max_num_ctx : Z;
  max_tokens : Z;
  recommended_ctx : Z
}.

Section WithEndpoint.
  Variable ep : endpoint.

(** [test_context(model, num_ctx, timeout)] *)
Definition test_context (model : string) (num_ctx timeout : Z) : probe :=
  let prompt := Py.repeat_str "test " (num_ctx / 2) in
  let attempt : Py.result probe :=
    resp <- ep {| Http.model := model;
                  prompt := String.append "Summarize: " prompt;
                  num_ctx := Some num_ctx;
                  num_predict := 10;
                  timeout := timeout |} ;;
    if status_code resp =? 200 then
      data <- json resp ;;
      Py.ret (Succeeded (Py.get (prompt_eval_count data) 0))
    else
      Py.ret (Failed (String.append "HTTP " (Py.str_of_int (status_code resp))))
  in
  match attempt with
  | inr p => p
  | inl e => Failed (Py.prefix 50 (Py.str e))
  end.

Definition default_timeout : Z := 300.

Definition context_sizes : list Z :=
  [4096; 8192; 16384; 32768; 65536; 131072; 196608; 262144; 524288].

(** The loop over [context_sizes]: tests, [max_successful], [max_tokens]. *)
Fixpoint search_loop (model : string) (sizes : list Z)
    (tests : list test_record) (max_successful max_tokens : Z)
  : list test_record * Z * Z :=
  match sizes with
  | [] => (tests, max_successful, max_tokens)
  | ctx :: rest =>
      let outcome := test_context model ctx default_timeout in
      let tests := tests ++ [{| rec_num_ctx := ctx; rec_outcome := outcome |}] in
      match outcome with
      | Succeeded tokens => search_loop model rest tests ctx tokens
      | Failed _ => (tests, max_successful, max_tokens)
      end
  end.

Definition find_max_context (model : string) : Py.result result :=
  let '(tests, max_successful, max_tokens) :=
    search_loop model context_sizes [] 0 0 in
  scaled <- Py.int_mul_float max_successful F64.f0_85 ;;
  recommended <- Py.int_of_float scaled ;;
  Py.ret {| model := model;
            tests := tests;
            max_num_ctx := max_successful;
            max_tokens := max_tokens;
            recommended_ctx := recommended |}.

(** One entry of [all_results]: a result, or the record the handler of
    [main] builds from an exception (its timestamp left out). *)
Inductive entry : Type :=
| Tested (r : result)
| Errored (model error : string).

(** The body of the per-model loop of [main]. *)
Definition run_one (model : string) : entry :=
  match find_max_context model with
  | inr result => Tested result
  | inl e => Errored model (Py.str e)
  end.

(** The per-model loop of [main]. *)
Fixpoint run_models (models : list string) (all_results : list entry)
  : list entry :=
  match models with
  | [] => all_results
  | model :: rest => run_models rest (all_results ++ [run_one model])
  end.

Definition default_models : list string :=
  ["qwen2.5:14b"; "qwen2.5-coder:14b"; "gemma2:9b"; "phi3:mini";
   "codestral:latest"; "llama3.1:8b"]%string.

(** [main], on the arguments after the script's name. *)
Definition main (argv : list string) : list entry :=
  let models := match argv with [] => default_models | _ => argv end in
  run_models models [].

End WithEndpoint.

End Batch.

(** ** Predicates used to reason about binary64 rounding *)

Module Rounding.

(** What [n] right shifts, [pw = 2 ^ n], leave of the mantissa [m0]: the
    quotient in [shr_m], and in the round and sticky bits the position of
    the remainder against half of [pw]. *)
Definition shr_inv (m0 pw : Z) (st : shr_record) : Prop :=
  0 <= shr_m st /\
  exists rem, m0 = shr_m st * pw + rem /\ 0 <= rem < pw /\
    (shr_r st = true <-> pw <= 2 * rem) /\
    (shr_s st = true <-> rem <> 0 /\ 2 * rem <> pw).

(** The double [r] is the correctly rounded product of the integer
    [n = mn / S] by the double [Mc * 2 ^ ec]: [W] is the weight of its last
    place in units of the exact product [mn * Mc], [K] that weight before a
    carry out of the mantissa, and the rounding error is at most [K / 2]. *)
Definition mul_int_facts (n Mc ec : Z) (r : spec_float) : Prop :=
  exists m' e' mn S W K,
    r = S754_finite false m' e' /\ e' < 0 /\
    mn = n * S /\ 32 <= S /\ (2 ^ 52 <= mn < 2 ^ 53) /\
    2 ^ (- e') * W = S * 2 ^ (- ec) /\ 0 < 2 ^ (- e') /\
    ((K = 2 ^ 52 /\ 2 ^ 104 <= mn * Mc < 2 ^ 105) \/
     (K = 2 ^ 53 /\ 2 ^ 105 <= mn * Mc < 2 ^ 106)) /\
    (W = K \/ W = 2 * K) /\
    (2 * (mn * Mc) - K <= 2 * (Zpos m' * W) <= 2 * (mn * Mc) + K).

(** [f] is a positive double with a negative exponent that compares with
    every integer [t] as the fraction [num / den] does. *)
Definition orders_as (f : spec_float) (num den : Z) : Prop :=
  exists m e, f = S754_finite false m e /\ e < 0 /\
    forall t, (t * 2 ^ (- e) ?= Zpos m) = (den * t ?= num).

End Rounding.

(** ** Reference notions the properties are stated against *)

Module Reference.

(** The largest output count among the records of the output regime. *)
Definition best_observed (tests : list Smart.output_record) : Z :=
  fold_right Z.max 0 (map Smart.actual_output tests).

(** The hardware limit read off the test records: the count of the last
    successful probe before a failed one when that count is positive. *)
Definition report_from_tests (tests : list Smart.test_record)
  : Smart.hardware_report :=
  match rev tests with
  | (Smart.Failed _, _) :: (Smart.Succeeded _ k _, _) :: _ =>
      if 0 <? k then Smart.Tokens k else Smart.NotReached
  | _ => Smart.NotReached
  end.

(** The endpoint answers every request for window [w] with status 200 and
    [tokens] consumed input tokens. *)
Definition answers (ep : Http.endpoint) (w tokens : Z) : Prop :=
  forall rq, Http.num_ctx rq = Some w ->
    exists resp data,
      ep rq = inr resp /\ Http.status_code resp = 200 /\
      Http.json resp = inr data /\ Http.prompt_eval_count data = Some tokens.

(** Every request for window [w] dies in the transport. *)
Definition transport_fails (ep : Http.endpoint) (w : Z) : Prop :=
  forall rq, Http.num_ctx rq = Some w ->
    exists msg, ep rq = inl (Py.ConnectionError msg).

(** The range of counts on which a binary64 product by one of the scripts'
    constants orders against the integers as the exact product does. *)
Definition in_range (n : Z) : Prop := 0 <= n < 2 ^ 48.

(** The requested size of a probe of [smart_context_test.py], in closed
    form: a quarter of the length of ["test " * (num_ctx // 2)]. *)
Definition smart_input_approx (num_ctx : Z) : Z := 5 * Z.max 0 (num_ctx / 2) / 4.

(** The requested size of a probe of [context_length_test.py], in closed
    form: a quarter of the length of the generated prompt. *)
Definition ctxlen_actual_tokens (target_tokens : Z) : Z :=
  (65 + 45 * Z.max 1 (target_tokens / 12)) / 4.

(** The request [smart_context_test.test_context] posts. *)
Definition smart_request (model : string) (num_ctx timeout : Z) : Http.request :=
  {| Http.model := model;
     Http.prompt :=
       String.append "Summarize: " (Py.repeat_str "test " (num_ctx / 2));
     Http.num_ctx := Some num_ctx;
     Http.num_predict := 10;
     Http.timeout := timeout |}.

(** The request [context_length_test.test_single_context] posts. *)
Definition ctxlen_request (model_name : string) (target_tokens : Z)
    (num_ctx : option Z) (timeout : Z) : Http.request :=
  {| Http.model := model_name;
     Http.prompt := CtxLen.generate_test_prompt target_tokens;
     Http.num_ctx := num_ctx;
     Http.num_predict := 100;
     Http.timeout := timeout |}.

(** Whatever the endpoint answers to a request without a window, the
    count of consumed tokens it reports is below [bound]. *)
Definition default_below (ep : Http.endpoint) (bound : Z) : Prop :=
  forall rq resp data,
    Http.num_ctx rq = None -> ep rq = inr resp -> Http.json resp = inr data ->
    Py.get (Http.prompt_eval_count data) 0 < bound.

(** Every context probe of the model fails. *)
Definition every_probe_fails (ep : Http.endpoint) (model : string) : Prop :=
  forall num_ctx timeout,
    Smart.success (Smart.test_context ep model num_ctx timeout) = false.

End Reference.

(** ** Invariants of the search loop of [find_native_limit] *)

Module Invariant.

(** A window whose requested size is positive and in range. *)
Definition good_window (num_ctx : Z) : Prop :=
  0 < Reference.smart_input_approx num_ctx < 2 ^ 48.

(** At the head of the loop no hardware limit is set, the recorded limit is
    the previous count, and that count is zero before the first probe and
    else the positive count of the last probe recorded. *)
Definition loop_inv (st : Smart.search) : Prop :=
  Smart.st_hardware_limit st = 0 /\
  Smart.native_limit st = Smart.prev_tokens st /\
  ((Smart.prev_tokens st = 0 /\ Smart.st_tests st = []) \/
   (0 < Smart.prev_tokens st /\
    exists pre R tr w,
      Smart.st_tests st = pre ++ [(Smart.Succeeded R (Smart.prev_tokens st) tr, w)])).

(** What [find_native_limit] reports of a final state. *)
Definition report (st : Smart.search) : Smart.hardware_report :=
  if Smart.st_hardware_limit st =? 0 then Smart.NotReached
  else Smart.Tokens (Smart.st_hardware_limit st).

(** A state the loop can end in: the report is the one read off the test
    records, and a reported count is positive. *)
Definition final_ok (st : Smart.search) : Prop :=
  report st = Reference.report_from_tests (Smart.st_tests st) /\
  (Smart.st_hardware_limit st <> 0 -> 0 < Smart.st_hardware_limit st).

End Invariant.

(** ** Concrete endpoints *)

Module Scenarios.
  Import Http.

(** A status-200 response with the two counters. *)
Definition replies (prompt_eval eval : Z) : Py.result response :=
  inr {| status_code := 200;
         text := "";
         json := inr {| prompt_eval_count := Some prompt_eval;
                        eval_count := Some eval |};
         elapsed := F64.of_Z 2 |}.

Definition refused : Py.result response :=
  inl (Py.ConnectionError
         "HTTPConnectionPool(host='localhost', port=11434): Max retries exceeded with url: /api/generate").


(** Model m1: 4090 tokens at window 4096, 8180 at 8192, no connection
    beyond (nor without a window). *)
Definition ep_m1 : endpoint := fun rq =>
  match num_ctx rq with
  | Some 4096 => replies 4090 10
  | Some 8192 => replies 8180 10
  | _ => refused
  end.

(** A server that honours fewer tokens at the larger window. *)
Definition ep_shrinking : endpoint := fun rq =>
  match num_ctx rq with
  | Some 4096 => replies 4090 10
  | Some 8192 => replies 4000 10
  | _ => refused
  end.

(** A server whose honoured capacity grows by less than a tenth from
    window 8192 to window 16384. *)
Definition ep_ten_percent : endpoint := fun rq =>
  match num_ctx rq with
  | Some 4096 => replies 20000 10
  | Some 8192 => replies 30000 10
  | Some 16384 => replies 31000 10
  | _ => refused
  end.

(** A model that ends its output by itself after about a thousand tokens. *)
Definition ep_output : endpoint := fun rq =>
  match num_predict rq with
  | 1024 => replies 40 1000
  | 2048 => replies 40 1050
  | _ => refused
  end.

(** Servers that are down, each in its way. *)
Definition ep_refused : endpoint := fun _ => refused.

Definition ep_unavailable : endpoint := fun _ =>
  inr {| status_code := 503;
         text := "Service Unavailable";
         json := inl (Py.ValueError "Expecting value: line 1 column 1 (char 0)");
         elapsed := F64.of_Z 0 |}.

(** A server that reports 9000 consumed tokens whatever it is asked. *)
Definition ep_nine_thousand : endpoint := fun _ => replies 9000 10.

(** Model m1 behind a server whose default window honours 9000 tokens:
    as [ep_m1] with a window, 9000 tokens without. *)
Definition ep_m1_wide_default : endpoint := fun rq =>
  match num_ctx rq with
  | Some 4096 => replies 4090 10
  | Some 8192 => replies 8180 10
  | None => replies 9000 10
  | _ => refused
  end.


End Scenarios.

(** ** Reading the result records *)

Module Records.

(** [done] is what a loop over [all] got to, from the first on. *)
Definition initial_segment {A : Type} (done all : list A) : Prop :=
  exists rest, all = done ++ rest.

(** The count of the most recent successful probe among the records of
    [smart_context_test.py], given from the last one back; 0 when none
    succeeded. *)
Fixpoint latest_count (newest_first : list Smart.test_record) : Z :=
  match newest_first with
  | [] => 0
  | (Smart.Succeeded _ tokens _, _) :: _ => tokens
  | (Smart.Failed _, _) :: older => latest_count older
  end.

Definition last_success_tokens (tests : list Smart.test_record) : Z :=
  latest_count (rev tests).

(** A probe after which the search of [find_native_limit] can go on:
    successful and not truncated. *)
Definition continued (rec : Smart.test_record) : Prop :=
  exists R t, fst rec = Smart.Succeeded R t false.

(** The model an entry of [all_results] names. *)
Definition entry_model (e : Smart.entry) : string :=
  match e with
  | Smart.Tested r => Smart.model (Smart.context r)
  | Smart.Errored model _ => model
  end.

(** Every counter the endpoint reports lies in the range of
    [Reference.in_range]; an absent counter reads as 0. *)
Definition counts_in_range (ep : Http.endpoint) : Prop :=
  forall rq resp data,
    ep rq = inr resp -> Http.json resp = inr data ->
    Reference.in_range (Py.get (Http.prompt_eval_count data) 0) /\
    Reference.in_range (Py.get (Http.eval_count data) 0).

(** The window and the count of the most recent successful probe among the
    records of [batch_context_test.py], given from the last one back. *)
Fixpoint batch_latest (newest_first : list Batch.test_record) : Z * Z :=
  match newest_first with
  | [] => (0, 0)
  | rec :: older =>
      match Batch.rec_outcome rec with
      | Batch.Succeeded tokens => (Batch.rec_num_ctx rec, tokens)
      | Batch.Failed _ => batch_latest older
      end
  end.

Definition batch_last_success (tests : list Batch.test_record) : Z * Z :=
  batch_latest (rev tests).

Definition batch_succeeded (rec : Batch.test_record) : Prop :=
  exists tokens, Batch.rec_outcome rec = Batch.Succeeded tokens.

(** [default_max] as Phase 1 of [context_length_test.py] leaves it, read
    off the records: the count of the last of the leading default-window
    probes that succeeded without truncation, from [default_max] on. *)
Fixpoint default_scan (tests : list CtxLen.outcome) (default_max : Z) : Z :=
  match tests with
  | CtxLen.Succeeded _ _ None count _ false :: rest => default_scan rest count
  | _ => default_max
  end.

(** A record that ends the scan: anything but a default-window probe that
    succeeded without truncation. *)
Definition ends_scan (o : CtxLen.outcome) : Prop :=
  match o with
  | CtxLen.Succeeded _ _ None _ _ false => False
  | _ => True
  end.

(** What a record of [context_length_test.py] says was asked: the target
    size and the window. *)
Definition probe_key (o : CtxLen.outcome) : Z * option Z :=
  match o with
  | CtxLen.Succeeded target _ num_ctx _ _ _ => (target, num_ctx)
  | CtxLen.Failed target num_ctx _ => (target, num_ctx)
  end.

(** A successful probe at window [w] with [count] consumed tokens. *)
Definition window_probe (w count : Z) (o : CtxLen.outcome) : Prop :=
  exists tgt R ec tr, o = CtxLen.Succeeded tgt R (Some w) count ec tr.

(** What Phase 2 keeps true of its variables, from the default
    [default_max] on and over the windows [windows]: without a best window
    the maximum is still the default; with one, the maximum is larger and
    is the count of a recorded probe at that window. *)
Definition best_window_inv (default_max : Z) (windows : list Z)
    (st : CtxLen.extended) : Prop :=
  match CtxLen.best_numctx st with
  | None => CtxLen.max_with_numctx st = default_max
  | Some w =>
      In w windows /\ default_max < CtxLen.max_with_numctx st /\
      Exists (window_probe w (CtxLen.max_with_numctx st)) (CtxLen.ext_tests st)
  end.

(** A server that reports the same counters whatever it is asked. *)
Definition ep_steady : Http.endpoint := fun _ => Scenarios.replies 4000 100.

End Records.

(** * Properties *)

(** ** Binary64: rounding a product to 53 bits *)

Section RoundingFacts.
  Import Rounding.

Lemma iter_pos_nat {A} (f : A -> A) p x :
  iter_pos f p x = Nat.iter (Pos.to_nat p) f x.
Proof.
  revert x; induction p as [p IH|p IH|]; intro x; simpl iter_pos.
  - rewrite !IH, Pos2Nat.inj_xI.
    replace (S (2 * Pos.to_nat p)) with (Pos.to_nat p + (Pos.to_nat p + 1))%nat by lia.
    rewrite !Nat.iter_add. reflexivity.
  - rewrite !IH, Pos2Nat.inj_xO.
    replace (2 * Pos.to_nat p)%nat with (Pos.to_nat p + Pos.to_nat p)%nat by lia.
    rewrite Nat.iter_add. reflexivity.
  - reflexivity.
Qed.

Lemma shr_1_nonneg m r s :
  0 <= m ->
  shr_1 (Build_shr_record m r s) = Build_shr_record (Z.div2 m) (Z.odd m) (r || s).
Proof.
  intros Hm. destruct m as [|[p|p|]|p]; try reflexivity; lia.
Qed.

Lemma shr_inv_step m0 pw st :
  0 < pw -> shr_inv m0 pw st -> shr_inv m0 (2 * pw) (shr_1 st).
Proof.
  intros Hpw [Hm (rem & Hm0 & Hrem & Hr & Hs)].
  destruct st as [m r s]; cbn [shr_m shr_r shr_s] in Hm, Hm0, Hr, Hs.
  rewrite shr_1_nonneg by assumption. unfold shr_inv; cbn [shr_m shr_r shr_s].
  pose proof (Z.div2_odd m) as Hdo.
  assert (0 <= Z.div2 m) by (rewrite Z.div2_nonneg; assumption).
  split; [assumption|].
  exists (Z.b2z (Z.odd m) * pw + rem).
  assert (Hrs : (r || s = true) <-> rem <> 0).
  { rewrite orb_true_iff, Hr, Hs. lia. }
  rewrite Hdo in Hm0 at 1. clear Hdo.
  destruct (Z.odd m); cbn [Z.b2z] in *; rewrite Hrs;
    repeat split; intros; try discriminate; try lia.
Qed.

Lemma shr_inv_iter m0 n :
  0 <= m0 ->
  shr_inv m0 (2 ^ Z.of_nat n) (Nat.iter n shr_1 (Build_shr_record m0 false false)).
Proof.
  intros Hm0. induction n as [|n IH].
  - change (Nat.iter 0 shr_1 ?x) with x.
    split; [assumption|]. exists 0. cbn [shr_m shr_r shr_s].
    change (2 ^ Z.of_nat 0) with 1.
    split; [lia|]. split; [lia|].
    split; (split; [discriminate|lia]).
  - rewrite Nat.iter_succ. rewrite Nat2Z.inj_succ, Z.pow_succ_r by lia.
    apply shr_inv_step; [lia|assumption].
Qed.

(** Round-to-nearest-even moves the shifted mantissa by at most half a
    unit of the last place kept. *)
Lemma round_nearest_even_inv m0 pw st :
  0 < pw -> shr_inv m0 pw st ->
  let q := round_nearest_even (shr_m st) (loc_of_shr_record st) in
  (shr_m st <= q <= shr_m st + 1) /\
  (2 * m0 - pw <= 2 * (q * pw) <= 2 * m0 + pw).
Proof.
  intros Hpw [Hm (rem & Hm0 & Hrem & Hr & Hs)].
  destruct st as [m r s]; cbn [shr_m shr_r shr_s] in *.
  destruct r, s; cbn [loc_of_shr_record round_nearest_even].
  - assert (pw <= 2 * rem) by (apply Hr; reflexivity). nia.
  - assert (pw <= 2 * rem) by (apply Hr; reflexivity).
    assert (~ (rem <> 0 /\ 2 * rem <> pw)) by (intro X; apply Hs in X; discriminate).
    destruct (Z.even m); nia.
  - assert (~ pw <= 2 * rem) by (intro X; apply Hr in X; discriminate). nia.
  - assert (~ pw <= 2 * rem) by (intro X; apply Hr in X; discriminate).
    assert (~ (rem <> 0 /\ 2 * rem <> pw)) by (intro X; apply Hs in X; discriminate).
    nia.
Qed.

Lemma shr_nonneg_amount st e k :
  0 <= k -> shr st e k = (Nat.iter (Z.to_nat k) shr_1 st, e + k).
Proof.
  intros Hk. destruct k as [|p|p]; try lia.
  - cbn. rewrite Z.add_0_r. reflexivity.
  - cbn [shr]. rewrite iter_pos_nat. reflexivity.
Qed.

Lemma digits2_pos_size p : digits2_pos p = Pos.size p.
Proof. induction p; cbn; congruence. Qed.

Lemma Zdigits2_log2 p : Zdigits2 (Zpos p) = Z.log2 (Zpos p) + 1.
Proof.
  cbn [Zdigits2]. rewrite digits2_pos_size.
  destruct p; cbn [Pos.size Z.log2]; lia.
Qed.

Lemma Zdigits2_bounds p d :
  2 ^ (d - 1) <= Zpos p < 2 ^ d -> 0 < d -> Zdigits2 (Zpos p) = d.
Proof.
  intros H Hd. rewrite Zdigits2_log2.
  rewrite (Z.log2_unique (Zpos p) (d - 1)); try lia.
  replace (Z.succ (d - 1)) with d by lia. assumption.
Qed.

Lemma pos_iter_xO p d : Zpos (Pos.iter xO p d) = Zpos p * 2 ^ Zpos d.
Proof.
  induction d as [|d IH] using Pos.peano_ind.
  - cbn [Pos.iter]. lia.
  - rewrite Pos.iter_succ, Pos2Z.inj_xO, IH, Pos2Z.inj_succ, Z.pow_succ_r by lia. lia.
Qed.

(** Rounding a positive mantissa of [53 + k] digits to binary64, away from
    the subnormal and the overflow ranges. *)
Lemma binary_round_aux_finite P e k :
  0 <= k -> 2 ^ (52 + k) <= Zpos P < 2 ^ (53 + k) ->
  -1074 <= e + k -> e + k + 1 <= 971 ->
  exists m' e',
    binary_round_aux 53 1024 false (Zpos P) e loc_Exact = S754_finite false m' e' /\
    (e + k <= e' <= e + k + 1) /\
    (2 ^ 52 <= Zpos m' < 2 ^ 53) /\
    (2 * Zpos P - 2 ^ k <= 2 * (Zpos m' * 2 ^ (e' - e)) <= 2 * Zpos P + 2 ^ k).
Proof.
  intros Hk HP He1 He2.
  unfold binary_round_aux, shr_fexp.
  rewrite (Zdigits2_bounds P (53 + k)) by (replace (53 + k - 1) with (52 + k) by lia; lia).
  unfold fexp, emin. rewrite Z.max_l by lia.
  replace (53 + k + e - 53 - e) with k by lia.
  cbn [shr_record_of_loc]. rewrite shr_nonneg_amount by assumption.
  pose proof (shr_inv_iter (Zpos P) (Z.to_nat k) ltac:(lia)) as Hinv.
  rewrite Z2Nat.id in Hinv by assumption.
  assert (Hpw : 0 < 2 ^ k) by (apply Z.pow_pos_nonneg; lia).
  pose proof (round_nearest_even_inv _ _ _ Hpw Hinv) as Hq. cbv zeta in Hq.
  destruct Hinv as [Hm (rem & Hm0 & Hrem & _)].
  set (st := Nat.iter (Z.to_nat k) shr_1 _) in *.
  set (q := round_nearest_even (shr_m st) (loc_of_shr_record st)) in *.
  destruct Hq as [Hq1 Hq2].
  assert (H52 : 2 ^ (52 + k) = 2 ^ 52 * 2 ^ k) by (apply Z.pow_add_r; lia).
  assert (H53 : 2 ^ (53 + k) = 2 ^ 53 * 2 ^ k) by (apply Z.pow_add_r; lia).
  assert (Hmr : 2 ^ 52 <= shr_m st < 2 ^ 53) by nia.
  assert (Hqr : 2 ^ 52 <= q <= 2 ^ 53) by lia.
  destruct (Z.eq_dec q (2 ^ 53)) as [Heq|Hne].
  - (* the mantissa carries out: one more shift, which is exact *)
    rewrite Heq.
    replace (Zdigits2 (2 ^ 53)) with 54 by reflexivity.
    rewrite Z.max_l by lia.
    replace (54 + (e + k) - 53 - (e + k)) with 1 by lia.
    cbn [shr iter_pos]. change (shr_1 _) with (Build_shr_record (2 ^ 52) false false).
    cbn [shr_m]. change (2 ^ 52) with (Zpos (2 ^ 52)%positive) at 1.
    cbv iota beta.
    replace (e + k + 1 <=? 1024 - 53) with true by (symmetry; apply Z.leb_le; lia).
    eexists; eexists; split; [reflexivity|].
    split; [lia|]. split; [lia|].
    replace (e + k + 1 - e) with (k + 1) by lia.
    rewrite Z.pow_add_r by lia. change (2 ^ 1) with 2.
    change (Zpos (2 ^ 52)%positive) with (2 ^ 52). rewrite Heq in Hq2. lia.
  - destruct q as [|qp|qp] eqn:Eq; try lia.
    rewrite (Zdigits2_bounds qp 53) by lia.
    rewrite Z.max_l by lia.
    replace (53 + (e + k) - 53 - (e + k)) with 0 by lia.
    cbn [shr shr_m].
    replace (e + k <=? 1024 - 53) with true by (symmetry; apply Z.leb_le; lia).
    eexists; eexists; split; [reflexivity|].
    split; [lia|]. split; [lia|].
    replace (e + k - e) with k by lia. lia.
Qed.

(** An integer below [2 ^ 53] converts exactly, to a normalised mantissa. *)
Lemma of_Z_normal n :
  0 < n < 2 ^ 53 ->
  exists mn en,
    F64.of_Z n = S754_finite false mn en /\
    Zpos mn = n * 2 ^ (- en) /\ -52 <= en <= 0 /\ 2 ^ 52 <= Zpos mn < 2 ^ 53.
Proof.
  intros Hn. destruct n as [|p|p]; try lia.
  unfold F64.of_Z, F64.prec, F64.emax, binary_normalize, binary_round.
  pose proof (Zdigits2_log2 p) as Hd. cbn [Zdigits2] in Hd.
  pose proof (Z.log2_spec (Zpos p) ltac:(lia)) as Hlog.
  pose proof (Z.log2_nonneg (Zpos p)) as Hlog0.
  assert (Hlt : Z.log2 (Zpos p) < 53) by (apply Z.log2_lt_pow2; lia).
  set (l := Z.log2 (Zpos p)) in *.
  rewrite Hd. unfold fexp, emin. rewrite Z.max_l by lia.
  unfold shl_align.
  replace (l + 1 + 0 - 53 - 0) with (l - 52) by lia.
  replace (l + 1 + 0 - 53) with (l - 52) by lia.
  assert (Hsh : exists mz,
             match l - 52 with
             | Z.neg d => (Pos.iter xO p d, l - 52)
             | _ => (p, 0)
             end = (mz, l - 52) /\
             Zpos mz = Zpos p * 2 ^ (52 - l)).
  { destruct (l - 52) as [|d|d] eqn:E; try lia.
    - exists p. replace (52 - l) with 0 by lia. split; [reflexivity|lia].
    - exists (Pos.iter xO p d). rewrite pos_iter_xO.
      replace (52 - l) with (Zpos d) by lia. split; reflexivity. }
  destruct Hsh as (mz & Hsh & Hmz). rewrite Hsh.
  assert (Hpow : 2 ^ 52 = 2 ^ l * 2 ^ (52 - l)).
  { rewrite <- Z.pow_add_r by lia. f_equal; lia. }
  assert (H2 : 0 < 2 ^ (52 - l)) by (apply Z.pow_pos_nonneg; lia).
  replace (Z.succ l) with (l + 1) in Hlog by lia.
  rewrite Z.pow_add_r in Hlog by lia. change (2 ^ 1) with 2 in Hlog.
  assert (Hr : 2 ^ 52 <= Zpos mz < 2 ^ 53).
  { change (2 ^ 53) with (2 * 2 ^ 52). rewrite Hmz, Hpow. nia. }
  destruct (binary_round_aux_finite mz (l - 52) 0) as (m' & e' & Hb & He' & Hm' & Hx);
    try lia.
  rewrite Hb. exists m', e'.
  assert (e' = l - 52 \/ e' = l - 52 + 1) as [Ee|Ee] by lia; subst e'.
  - replace (l - 52 - (l - 52)) with 0 in Hx by lia.
    change (2 ^ 0) with 1 in Hx.
    assert (Zpos m' = Zpos mz) by lia.
    replace (- (l - 52)) with (52 - l) by lia.
    repeat split; try lia.
  - exfalso. replace (l - 52 + 1 - (l - 52)) with 1 in Hx by lia.
    change (2 ^ 1) with 2 in Hx. change (2 ^ 0) with 1 in Hx. lia.
Qed.

(** The product of an integer below [2 ^ 48] by a normal double of
    exponent [-53] or [-52] is correctly rounded. *)
Lemma mul_of_Z_facts n Mc ec :
  0 < n < 2 ^ 48 -> 2 ^ 52 <= Zpos Mc < 2 ^ 53 -> -53 <= ec <= -52 ->
  mul_int_facts n (Zpos Mc) ec (F64.mul (F64.of_Z n) (S754_finite false Mc ec)).
Proof.
  intros Hn HMc Hec.
  destruct (of_Z_normal n) as (mn & en & Hof & Hmn & Hen & Hmr); [lia|].
  rewrite Hof. unfold F64.mul, F64.prec, F64.emax. cbn [SFmul xorb].
  assert (Hen5 : 5 <= - en).
  { destruct (Z_le_gt_dec 5 (- en)) as [H5|H5]; [assumption|exfalso].
    assert (2 ^ (- en) <= 2 ^ 4) by (apply Z.pow_le_mono_r; lia).
    change (2 ^ 4) with 16 in *. nia. }
  assert (HS : 32 <= 2 ^ (- en)).
  { change 32 with (2 ^ 5). apply Z.pow_le_mono_r; lia. }
  set (S := 2 ^ (- en)) in *.
  assert (HP : 2 ^ 104 <= Zpos (mn * Mc) < 2 ^ 106).
  { rewrite Pos2Z.inj_mul. change (2 ^ 104) with (2 ^ 52 * 2 ^ 52).
    change (2 ^ 106) with (2 ^ 53 * 2 ^ 53). nia. }
  assert (Hk : exists k, (k = 52 \/ k = 53) /\
                         2 ^ (52 + k) <= Zpos (mn * Mc) < 2 ^ (53 + k)).
  { destruct (Z_lt_le_dec (Zpos (mn * Mc)) (2 ^ 105)).
    - exists 52. split; [lia|]. change (52 + 52) with 104. change (53 + 52) with 105. lia.
    - exists 53. split; [lia|]. change (52 + 53) with 105. change (53 + 53) with 106. lia. }
  destruct Hk as (k & Hk & HPk).
  destruct (binary_round_aux_finite (mn * Mc) (en + ec) k)
    as (m' & e' & Hb & He' & Hm' & Hx); try lia.
  rewrite Hb. exists m', e', (Zpos mn), S, (2 ^ (e' - (en + ec))), (2 ^ k).
  rewrite Pos2Z.inj_mul in *.
  split; [reflexivity|]. split; [lia|]. split; [lia|]. split; [lia|]. split; [lia|].
  split.
  { unfold S. rewrite <- !Z.pow_add_r by lia. f_equal. lia. }
  split; [apply Z.pow_pos_nonneg; lia|].
  split.
  { destruct Hk; subst k; [left|right]; (split; [reflexivity|]).
    - change (52 + 52) with 104 in HPk. change (53 + 52) with 105 in HPk. exact HPk.
    - change (52 + 53) with 105 in HPk. change (53 + 53) with 106 in HPk. exact HPk. }
  split.
  { assert (e' - (en + ec) = k \/ e' - (en + ec) = k + 1) as [E|E] by lia; rewrite E.
    - left; reflexivity.
    - right. rewrite Z.pow_add_r by lia. change (2 ^ 1) with 2. lia. }
  exact Hx.
Qed.

End RoundingFacts.

(** ** Binary64: products by the scripts' constants *)

Section ConstantFacts.
  Import Rounding.

Ltac use_mul_facts n c :=
  unfold c;
  match goal with
  | |- context [F64.mul (F64.of_Z n) (S754_finite false ?Mc ?ec)] =>
      let m' := fresh "m'" in let e' := fresh "e'" in
      let mn := fresh "mn" in let S := fresh "S" in
      let W := fresh "W" in let K := fresh "K" in
      let Hr := fresh "Hr" in
      destruct (mul_of_Z_facts n Mc ec ltac:(lia) ltac:(lia) ltac:(lia))
        as (m' & e' & mn & S & W & K & Hr & ? & ? & ? & ? & ? & ? & ? & ? & ?);
      rewrite Hr
  end.

Ltac scale_by Q t n u v :=
  match goal with
  | HQ : Q * ?W = ?S * ?c, Hmn : ?mn = n * ?S |- _ =>
      assert (v * W = mn * c) by (subst u v; rewrite Hmn; nia)
  end.

Ltac split_cases :=
  match goal with
  | HK : (?K = _ /\ _) \/ (?K = _ /\ _), HW : ?W = ?K \/ ?W = 2 * ?K |- _ =>
      destruct HK as [[? ?]|[? ?]]; destruct HW; subst W K
  end.

Ltac order_cases m' Q n t a b :=
  set (Q := 2 ^ (- _)) in *;
  let u := fresh "u" in let v := fresh "v" in
  set (u := t * Q) in *; set (v := n * Q) in *;
  scale_by Q t n u v;
  assert (b * t < a * n -> u < Zpos m')
    by (intros; assert (b * u + Q <= a * v) by (subst u v; nia);
        clearbody u v Q; split_cases; lia);
  assert (b * t = a * n -> u = Zpos m')
    by (intros; assert (a * v = b * u) by (subst u v; nia);
        clearbody u v Q; split_cases; lia);
  assert (a * n < b * t -> Zpos m' < u)
    by (intros; assert (a * v + Q <= b * u) by (subst u v; nia);
        clearbody u v Q; split_cases; lia);
  destruct (Z.compare_spec (b * t) (a * n));
  [ apply Z.compare_eq_iff | apply Z.compare_lt_iff | apply Z.compare_gt_iff ];
  auto with zarith.

Lemma mul_0_8_orders n :
  0 < n < 2 ^ 48 -> orders_as (F64.mul (F64.of_Z n) F64.f0_8) (4 * n) 5.
Proof.
  intros Hn. use_mul_facts n F64.f0_8.
  exists m', e'. split; [reflexivity|]. split; [assumption|]. intros t.
  change (- -53) with 53 in *.
  let Q := fresh "Q" in order_cases m' Q n t 4 5.
Qed.

Lemma mul_0_9_orders n :
  0 < n < 2 ^ 48 -> orders_as (F64.mul (F64.of_Z n) F64.f0_9) (9 * n) 10.
Proof.
  intros Hn. use_mul_facts n F64.f0_9.
  exists m', e'. split; [reflexivity|]. split; [assumption|]. intros t.
  change (- -53) with 53 in *.
  let Q := fresh "Q" in order_cases m' Q n t 9 10.
Qed.

Lemma mul_0_85_orders n :
  0 < n < 2 ^ 48 -> orders_as (F64.mul (F64.of_Z n) F64.f0_85) (17 * n) 20.
Proof.
  intros Hn. use_mul_facts n F64.f0_85.
  exists m', e'. split; [reflexivity|]. split; [assumption|]. intros t.
  change (- -53) with 53 in *.
  let Q := fresh "Q" in order_cases m' Q n t 17 20.
Qed.

(** The double [1.1] lies above eleven tenths, and a product by it can round
    up past an integer: only the order [<=] agrees with the fraction. *)
Lemma mul_1_1_leb t n :
  0 < n < 2 ^ 48 ->
  F64.Z_leb t (F64.mul (F64.of_Z n) F64.f1_1) = (10 * t <=? 11 * n).
Proof.
  intros Hn. use_mul_facts n F64.f1_1.
  unfold F64.Z_leb, F64.compare_Z. cbn [cond_Zopp].
  replace (0 <=? e') with false by (symmetry; apply Z.leb_gt; lia).
  change (- -52) with 52 in *.
  set (Q := 2 ^ (- e')) in *.
  set (u := t * Q) in *; set (v := n * Q) in *.
  scale_by Q t n u v.
  assert (10 * t <= 11 * n -> u <= Zpos m')
    by (intros; assert (10 * u <= 11 * v) by (subst u v; nia);
        clearbody u v Q; split_cases; lia).
  assert (11 * n < 10 * t -> Zpos m' < u)
    by (intros; assert (11 * v + Q <= 10 * u) by (subst u v; nia);
        clearbody u v Q; split_cases; lia).
  destruct (Z.leb_spec (10 * t) (11 * n)); destruct (Z.compare_spec u (Zpos m'));
    try reflexivity; lia.
Qed.

Lemma orders_as_ltb f num den t :
  orders_as f num den -> F64.Z_ltb t f = (den * t <? num).
Proof.
  intros (m & e & -> & He & H).
  unfold F64.Z_ltb, F64.compare_Z. cbn [cond_Zopp].
  replace (0 <=? e) with false by (symmetry; apply Z.leb_gt; lia).
  rewrite H. unfold Z.ltb. destruct (den * t ?= num); reflexivity.
Qed.

Lemma orders_as_trunc f num den :
  orders_as f num den -> 0 < den -> F64.trunc f = Some (num / den).
Proof.
  intros (m & e & -> & He & H) Hden.
  unfold F64.trunc. cbn [cond_Zopp].
  replace (0 <=? e) with false by (symmetry; apply Z.leb_gt; lia).
  f_equal.
  assert (HQ : 0 < 2 ^ (- e)) by (apply Z.pow_pos_nonneg; lia).
  set (Q := 2 ^ (- e)) in *.
  pose proof (Z.div_mod num den ltac:(lia)) as Hdm.
  pose proof (Z.mod_pos_bound num den Hden) as Hmb.
  set (z := num / den) in *. set (r := num mod den) in *. clearbody z r Q.
  assert (Hlo : z * Q <= Zpos m).
  { pose proof (H z) as Hz. destruct (Z.compare_spec (z * Q) (Zpos m)); try lia.
    symmetry in Hz. rewrite Z.compare_gt_iff in Hz. lia. }
  assert (Hhi : Zpos m < (z + 1) * Q).
  { pose proof (H (z + 1)) as Hz. destruct (Z.compare_spec ((z + 1) * Q) (Zpos m)); try lia.
    - symmetry in Hz. rewrite Z.compare_eq_iff in Hz. lia.
    - symmetry in Hz. rewrite Z.compare_lt_iff in Hz. lia. }
  symmetry. apply (Z.div_unique_pos _ _ _ (Zpos m - z * Q)); lia.
Qed.

Lemma float_of_int_in_range n :
  Reference.in_range n -> Py.float_of_int n = inr (F64.of_Z n).
Proof.
  intros [H0 H1]. unfold Py.float_of_int.
  destruct (Z.eq_dec n 0) as [->|Hn]; [reflexivity|].
  destruct (of_Z_normal n) as (mn & en & -> & _);
    [ change (2 ^ 53) with (32 * 2 ^ 48); lia | reflexivity ].
Qed.

Lemma int_mul_float_in_range n x :
  Reference.in_range n -> Py.int_mul_float n x = inr (F64.mul (F64.of_Z n) x).
Proof.
  intros Hn. unfold Py.int_mul_float. rewrite float_of_int_in_range by assumption.
  reflexivity.
Qed.

(** [t < n * 0.8] is [5 t < 4 n]. *)
Lemma ltb_mul_0_8 t n :
  Reference.in_range n ->
  F64.Z_ltb t (F64.mul (F64.of_Z n) F64.f0_8) = (5 * t <? 4 * n).
Proof.
  intros [H0 H1]. destruct (Z.eq_dec n 0) as [->|Hn].
  - destruct t; reflexivity.
  - apply orders_as_ltb, mul_0_8_orders. lia.
Qed.

(** [t < n * 0.9] is [10 t < 9 n]. *)
Lemma ltb_mul_0_9 t n :
  Reference.in_range n ->
  F64.Z_ltb t (F64.mul (F64.of_Z n) F64.f0_9) = (10 * t <? 9 * n).
Proof.
  intros [H0 H1]. destruct (Z.eq_dec n 0) as [->|Hn].
  - destruct t; reflexivity.
  - apply orders_as_ltb, mul_0_9_orders. lia.
Qed.

(** [t <= n * 1.1] is [10 t <= 11 n]. *)
Lemma leb_mul_1_1 t n :
  Reference.in_range n ->
  F64.Z_leb t (F64.mul (F64.of_Z n) F64.f1_1) = (10 * t <=? 11 * n).
Proof.
  intros [H0 H1]. destruct (Z.eq_dec n 0) as [->|Hn].
  - destruct t; reflexivity.
  - apply mul_1_1_leb. lia.
Qed.

(** [int(n * 0.9)], [int(n * 0.8)] and [int(n * 0.85)] are the floors of the
    fractions. *)
Lemma int_of_mul_0_9 n :
  Reference.in_range n ->
  Py.int_of_float (F64.mul (F64.of_Z n) F64.f0_9) = inr (9 * n / 10).
Proof.
  intros [H0 H1]. unfold Py.int_of_float. destruct (Z.eq_dec n 0) as [->|Hn].
  - reflexivity.
  - rewrite (orders_as_trunc _ (9 * n) 10); [reflexivity| |lia].
    apply mul_0_9_orders. lia.
Qed.

Lemma int_of_mul_0_8 n :
  Reference.in_range n ->
  Py.int_of_float (F64.mul (F64.of_Z n) F64.f0_8) = inr (4 * n / 5).
Proof.
  intros [H0 H1]. unfold Py.int_of_float. destruct (Z.eq_dec n 0) as [->|Hn].
  - reflexivity.
  - rewrite (orders_as_trunc _ (4 * n) 5); [reflexivity| |lia].
    apply mul_0_8_orders. lia.
Qed.

Lemma int_of_mul_0_85 n :
  Reference.in_range n ->
  Py.int_of_float (F64.mul (F64.of_Z n) F64.f0_85) = inr (17 * n / 20).
Proof.
  intros [H0 H1]. unfold Py.int_of_float. destruct (Z.eq_dec n 0) as [->|Hn].
  - reflexivity.
  - rewrite (orders_as_trunc _ (17 * n) 20); [reflexivity| |lia].
    apply mul_0_85_orders. lia.
Qed.

End ConstantFacts.

(** ** Prompts and their lengths *)

Lemma length_append (s1 s2 : string) :
  String.length (String.append s1 s2) = (String.length s1 + String.length s2)%nat.
Proof.
  induction s1 as [|c s1 IH]; cbn; [reflexivity|]. rewrite IH. reflexivity.
Qed.

Lemma length_concat_repeat (s : string) (n : nat) :
  String.length (String.concat "" (List.repeat s n)) = (n * String.length s)%nat.
Proof.
  induction n as [|n IH]; [reflexivity|].
  cbn [List.repeat]. destruct n as [|n].
  - cbn. lia.
  - change (String.concat "" (s :: List.repeat s (S n)))
      with (String.append s (String.append "" (String.concat "" (List.repeat s (S n))))).
    rewrite length_append. cbn [String.append]. rewrite IH. lia.
Qed.

Lemma len_repeat_str (s : string) (k : Z) :
  Py.len (Py.repeat_str s k) = Py.len s * Z.max 0 k.
Proof.
  unfold Py.len, Py.repeat_str. rewrite length_concat_repeat. lia.
Qed.

Lemma smart_prompt_tokens (num_ctx : Z) :
  Py.len (Py.repeat_str "test " (num_ctx / 2)) / 4 = Reference.smart_input_approx num_ctx.
Proof. rewrite len_repeat_str. reflexivity. Qed.

Lemma ctxlen_prompt_tokens (target_tokens : Z) :
  CtxLen.count_tokens_approx (CtxLen.generate_test_prompt target_tokens)
  = Reference.ctxlen_actual_tokens target_tokens.
Proof.
  unfold CtxLen.count_tokens_approx, CtxLen.generate_test_prompt,
    Reference.ctxlen_actual_tokens.
  f_equal. unfold Py.len. cbn [String.concat].
  rewrite !length_append.
  fold (Py.len (Py.repeat_str CtxLen.base (Z.max 1 (target_tokens / 12)))).
  pose proof (len_repeat_str CtxLen.base (Z.max 1 (target_tokens / 12))) as H.
  unfold Py.len in H at 1.
  change (Py.len CtxLen.base) with 45 in H.
  cbn [String.length CtxLen.newline String.append]. lia.
Qed.

Lemma smart_input_approx_range (num_ctx : Z) :
  num_ctx < 2 ^ 48 -> Reference.in_range (Reference.smart_input_approx num_ctx).
Proof.
  intros H. unfold Reference.in_range, Reference.smart_input_approx.
  pose proof (Z.div_mod num_ctx 2 ltac:(lia)).
  pose proof (Z.mod_pos_bound num_ctx 2 ltac:(lia)).
  split.
  - apply Z.div_pos; lia.
  - apply Z.div_lt_upper_bound; lia.
Qed.

Lemma ctxlen_actual_tokens_range (target_tokens : Z) :
  target_tokens < 2 ^ 48 ->
  Reference.in_range (Reference.ctxlen_actual_tokens target_tokens).
Proof.
  intros H. unfold Reference.in_range, Reference.ctxlen_actual_tokens.
  pose proof (Z.div_mod target_tokens 12 ltac:(lia)).
  pose proof (Z.mod_pos_bound target_tokens 12 ltac:(lia)).
  split.
  - apply Z.div_pos; lia.
  - apply Z.div_lt_upper_bound; lia.
Qed.

(** ** The executors *)

Section ExecutorFacts.
  Import Http.
  Variable ep : endpoint.

(** What a successful probe of [smart_context_test.py] records. *)
Lemma smart_test_context_succeeded model w timeout R t tr :
  Smart.test_context ep model w timeout = Smart.Succeeded R t tr ->
  R = Reference.smart_input_approx w /\
  (R < 2 ^ 48 -> tr = (5 * t <? 4 * R)).
Proof.
  unfold Smart.test_context. rewrite smart_prompt_tokens.
  destruct (ep _) as [e|resp]; cbn [Py.bind]; [discriminate|].
  destruct (status_code resp =? 200); [|discriminate].
  destruct (json resp) as [e|data]; cbn [Py.bind]; [discriminate|].
  destruct (Py.int_mul_float _ F64.f0_8) as [e|limit] eqn:Emul; cbn [Py.bind Py.ret];
    [discriminate|].
  intros H. injection H as <- <- <-. split; [reflexivity|]. intros HR.
  assert (Hin : Reference.in_range (Reference.smart_input_approx w)).
  { split; [|assumption]. unfold Reference.smart_input_approx. apply Z.div_pos; lia. }
  rewrite int_mul_float_in_range in Emul by assumption.
  injection Emul as <-. apply ltb_mul_0_8. assumption.
Qed.

(** A status-200 answer with [tokens] consumed makes the probe succeed. *)
Lemma smart_test_context_answers model w timeout tokens :
  Reference.answers ep w tokens ->
  Reference.smart_input_approx w < 2 ^ 48 ->
  Smart.test_context ep model w timeout =
    Smart.Succeeded (Reference.smart_input_approx w) tokens
      (5 * tokens <? 4 * Reference.smart_input_approx w).
Proof.
  intros Hans HR. unfold Smart.test_context. rewrite smart_prompt_tokens.
  match goal with |- context [ep ?rq] =>
    destruct (Hans rq eq_refl) as (resp & data & -> & Hst & Hjs & Hpe) end.
  cbn [Py.bind]. rewrite Hst, Hjs. cbn [Z.eqb Pos.eqb Py.bind]. rewrite Hpe.
  assert (Hin : Reference.in_range (Reference.smart_input_approx w)).
  { split; [|assumption]. unfold Reference.smart_input_approx. apply Z.div_pos; lia. }
  rewrite int_mul_float_in_range by assumption. cbn [Py.bind Py.ret Py.get].
  rewrite ltb_mul_0_8 by assumption. reflexivity.
Qed.

(** A transport failure makes the probe fail, with the start of the message. *)
Lemma smart_test_context_transport model w timeout :
  Reference.transport_fails ep w ->
  exists msg, Smart.test_context ep model w timeout = Smart.Failed (Py.prefix 50 msg).
Proof.
  intros Hf. unfold Smart.test_context.
  match goal with |- context [ep ?rq] => destruct (Hf rq eq_refl) as (msg & ->) end.
  exists msg. reflexivity.
Qed.

(** What a successful probe of [context_length_test.py] records. *)
Lemma ctxlen_test_single_context_succeeded model target nc timeout tgt R nc' t ec tr :
  CtxLen.test_single_context ep model target nc timeout
    = CtxLen.Succeeded tgt R nc' t ec tr ->
  tgt = target /\ nc' = nc /\
  R = Reference.ctxlen_actual_tokens target /\
  (R < 2 ^ 48 -> tr = (10 * t <? 9 * R)).
Proof.
  unfold CtxLen.test_single_context. rewrite ctxlen_prompt_tokens.
  destruct (ep _) as [e|resp]; cbn [Py.bind].
  { destruct (Py.is_timeout e); discriminate. }
  destruct (status_code resp =? 200); [|discriminate].
  destruct (json resp) as [e|data]; cbn [Py.bind].
  { destruct (Py.is_timeout e); discriminate. }
  destruct (Py.int_mul_float _ F64.f0_9) as [e|limit] eqn:Emul; cbn [Py.bind Py.ret].
  { destruct (Py.is_timeout e); discriminate. }
  destruct (_ && _); cbn [Py.raise Py.is_timeout]; [discriminate|].
  intros H. injection H as <- <- <- <- <- <-.
  repeat split; try reflexivity. intros HR.
  assert (Hin : Reference.in_range (Reference.ctxlen_actual_tokens target)).
  { split; [|assumption]. unfold Reference.ctxlen_actual_tokens. apply Z.div_pos; lia. }
  rewrite int_mul_float_in_range in Emul by assumption.
  injection Emul as <-. apply ltb_mul_0_9. assumption.
Qed.

(** A status-200 answer makes a probe of [context_length_test.py] succeed,
    for counts far from the overflow of a true division. *)
Lemma ctxlen_test_single_context_answers model target w timeout tokens :
  Reference.answers ep w tokens ->
  target < 2 ^ 48 -> Z.abs tokens < 2 ^ 1000 ->
  exists ec,
    CtxLen.test_single_context ep model target (Some w) timeout =
      CtxLen.Succeeded target (Reference.ctxlen_actual_tokens target) (Some w) tokens ec
        (10 * tokens <? 9 * Reference.ctxlen_actual_tokens target).
Proof.
  intros Hans Ht Htok. unfold CtxLen.test_single_context. rewrite ctxlen_prompt_tokens.
  match goal with |- context [ep ?rq] =>
    destruct (Hans rq eq_refl) as (resp & data & -> & Hst & Hjs & Hpe) end.
  cbn [Py.bind]. rewrite Hst, Hjs. cbn [Z.eqb Pos.eqb Py.bind]. rewrite Hpe.
  pose proof (ctxlen_actual_tokens_range target Ht) as Hin.
  rewrite int_mul_float_in_range by assumption. cbn [Py.bind Py.ret Py.get].
  assert (Hlow : 27 <= Reference.ctxlen_actual_tokens target).
  { unfold Reference.ctxlen_actual_tokens. apply Z.div_le_lower_bound; lia. }
  replace (Py.truediv_overflows tokens (Reference.ctxlen_actual_tokens target)) with false.
  2:{ symmetry. unfold Py.truediv_overflows. apply Z.leb_gt.
      assert (2 ^ 1001 < 2 ^ 1025 - 2 ^ 971) by (vm_compute; reflexivity).
      assert (2 * 2 ^ 1000 = 2 ^ 1001) by (vm_compute; reflexivity).
      nia. }
  rewrite andb_false_r. rewrite ltb_mul_0_9 by assumption.
  eexists. reflexivity.
Qed.

(** A transport failure makes it fail, with the message of the exception. *)
Lemma ctxlen_test_single_context_transport model target w timeout :
  Reference.transport_fails ep w ->
  exists msg,
    CtxLen.test_single_context ep model target (Some w) timeout
      = CtxLen.Failed target (Some w) msg.
Proof.
  intros Hf. unfold CtxLen.test_single_context.
  match goal with |- context [ep ?rq] => destruct (Hf rq eq_refl) as (msg & ->) end.
  exists msg. reflexivity.
Qed.

End ExecutorFacts.

(** ** The executors, at the request they post *)

Section ExecutorAtRequest.
  Import Http.
  Variable ep : endpoint.

(** A status-200 answer with a JSON body makes the probe of
    [smart_context_test.py] succeed, classified by [5 t < 4 R]. *)
Lemma smart_test_context_replied model w timeout resp data :
  ep (Reference.smart_request model w timeout) = inr resp ->
  status_code resp = 200 -> json resp = inr data ->
  Reference.smart_input_approx w < 2 ^ 48 ->
  Smart.test_context ep model w timeout
  = Smart.Succeeded (Reference.smart_input_approx w)
      (Py.get (prompt_eval_count data) 0)
      (5 * Py.get (prompt_eval_count data) 0 <? 4 * Reference.smart_input_approx w).
Proof.
  unfold Reference.smart_request. intros Hep Hst Hjs HR.
  unfold Smart.test_context. rewrite smart_prompt_tokens, Hep. cbn [Py.bind].
  rewrite Hst, Hjs. cbn [Z.eqb Pos.eqb Py.bind].
  assert (Hin : Reference.in_range (Reference.smart_input_approx w)).
  { split; [|assumption]. unfold Reference.smart_input_approx. apply Z.div_pos; lia. }
  rewrite int_mul_float_in_range by assumption. cbn [Py.bind Py.ret].
  rewrite ltb_mul_0_8 by assumption. reflexivity.
Qed.

(** The same for [context_length_test.py], classified by [10 t < 9 R];
    a count so large that the utilization overflows makes the probe fail. *)
Lemma ctxlen_test_single_context_replied model target nc timeout resp data :
  ep (Reference.ctxlen_request model target nc timeout) = inr resp ->
  status_code resp = 200 -> json resp = inr data ->
  target < 2 ^ 48 ->
  CtxLen.test_single_context ep model target nc timeout
  = if Py.truediv_overflows (Py.get (prompt_eval_count data) 0)
         (Reference.ctxlen_actual_tokens target)
    then CtxLen.Failed target nc "integer division result too large for a float"
    else CtxLen.Succeeded target (Reference.ctxlen_actual_tokens target) nc
           (Py.get (prompt_eval_count data) 0) (Py.get (eval_count data) 0)
           (10 * Py.get (prompt_eval_count data) 0
              <? 9 * Reference.ctxlen_actual_tokens target).
Proof.
  unfold Reference.ctxlen_request. intros Hep Hst Hjs Ht.
  unfold CtxLen.test_single_context. rewrite ctxlen_prompt_tokens, Hep. cbn [Py.bind].
  rewrite Hst, Hjs. cbn [Z.eqb Pos.eqb Py.bind].
  pose proof (ctxlen_actual_tokens_range target Ht) as Hin.
  rewrite int_mul_float_in_range by assumption. cbn [Py.bind Py.ret].
  assert (Hlow : 27 <= Reference.ctxlen_actual_tokens target).
  { unfold Reference.ctxlen_actual_tokens. apply Z.div_le_lower_bound; lia. }
  replace (0 <? Reference.ctxlen_actual_tokens target) with true
    by (symmetry; apply Z.ltb_lt; lia).
  cbn [andb]. rewrite ltb_mul_0_9 by assumption.
  destruct (Py.truediv_overflows _ _); reflexivity.
Qed.

(** A successful probe of [context_length_test.py] reports the count of
    the answer to its request. *)
Lemma ctxlen_succeeded_reply model target nc timeout tgt R nc' t ec tr :
  CtxLen.test_single_context ep model target nc timeout
    = CtxLen.Succeeded tgt R nc' t ec tr ->
  exists resp data,
    ep (Reference.ctxlen_request model target nc timeout) = inr resp /\
    json resp = inr data /\ t = Py.get (prompt_eval_count data) 0.
Proof.
  unfold CtxLen.test_single_context, Reference.ctxlen_request.
  destruct (ep _) as [e|resp] eqn:Eep; cbn [Py.bind].
  { destruct (Py.is_timeout e); discriminate. }
  destruct (status_code resp =? 200); [|discriminate].
  destruct (json resp) as [e|data] eqn:Ejs; cbn [Py.bind].
  { destruct (Py.is_timeout e); discriminate. }
  destruct (Py.int_mul_float _ F64.f0_9) as [e|limit]; cbn [Py.bind Py.ret].
  { destruct (Py.is_timeout e); discriminate. }
  destruct (_ && _); cbn [Py.raise Py.is_timeout]; [discriminate|].
  intros H. injection H as _ _ _ <- _ _. exists resp, data. repeat split. assumption.
Qed.


End ExecutorAtRequest.

(** ** context_length_test.py: the extended-window phase *)

Section ExtendedPhase.
  Variable ep : Http.endpoint.
  Variables (model : string) (timeout : Z).

(** Phase 2 only ever replaces [max_with_numctx] by a larger count. *)
Lemma phase2_monotone windows :
  forall st st',
    CtxLen.phase2 ep model timeout windows st = inr st' ->
    CtxLen.max_with_numctx st <= CtxLen.max_with_numctx st'.
Proof.
  induction windows as [|w rest IH]; intros st st' H; cbn [CtxLen.phase2] in H.
  - injection H as <-. lia.
  - destruct (Py.int_mul_float w F64.f0_9) as [e|scaled]; cbn [Py.bind] in H;
      [discriminate|].
    destruct (Py.int_of_float scaled) as [e|test_size]; cbn [Py.bind] in H;
      [discriminate|].
    destruct (CtxLen.test_single_context ep model test_size (Some w) timeout)
      as [tgt R nc t ec tr|tgt nc err].
    + destruct (Z.ltb_spec (CtxLen.max_with_numctx st) t) as [Hlt|Hge].
      * apply IH in H. cbn [CtxLen.max_with_numctx] in H. lia.
      * destruct (Py.int_mul_float (CtxLen.max_with_numctx st) F64.f1_1)
          as [e|limit]; cbn [Py.bind] in H; [discriminate|].
        destruct (F64.Z_leb t limit).
        -- injection H as <-. cbn. lia.
        -- apply IH in H. cbn [CtxLen.max_with_numctx] in H. lia.
    + injection H as <-. cbn. lia.
Qed.

(** Phase 2 keeps the records of Phase 1 and adds its own after them. *)
Lemma phase2_extends windows :
  forall st st',
    CtxLen.phase2 ep model timeout windows st = inr st' ->
    exists added, CtxLen.ext_tests st' = CtxLen.ext_tests st ++ added.
Proof.
  induction windows as [|w rest IH]; intros st st' H; cbn [CtxLen.phase2] in H.
  - injection H as <-. exists []. rewrite app_nil_r. reflexivity.
  - destruct (Py.int_mul_float w F64.f0_9) as [e|scaled]; cbn [Py.bind] in H;
      [discriminate|].
    destruct (Py.int_of_float scaled) as [e|test_size]; cbn [Py.bind] in H;
      [discriminate|].
    set (result := CtxLen.test_single_context ep model test_size (Some w) timeout) in *.
    assert (Hstop : forall m b,
               exists added,
                 CtxLen.ext_tests
                   {| CtxLen.ext_tests := CtxLen.ext_tests st ++ [result];
                      CtxLen.max_with_numctx := m; CtxLen.best_numctx := b |}
                 = CtxLen.ext_tests st ++ added).
    { intros. exists [result]. reflexivity. }
    assert (Hgo : forall m b,
               CtxLen.phase2 ep model timeout rest
                 {| CtxLen.ext_tests := CtxLen.ext_tests st ++ [result];
                    CtxLen.max_with_numctx := m; CtxLen.best_numctx := b |} = inr st' ->
               exists added, CtxLen.ext_tests st' = CtxLen.ext_tests st ++ added).
    { intros m b Hrun. apply IH in Hrun. destruct Hrun as (added & ->).
      cbn [CtxLen.ext_tests]. exists (result :: added).
      rewrite <- app_assoc. reflexivity. }
    destruct result as [tgt R nc t ec tr|tgt nc err].
    + destruct (CtxLen.max_with_numctx st <? t); [eauto|].
      destruct (Py.int_mul_float (CtxLen.max_with_numctx st) F64.f1_1)
        as [e|limit]; cbn [Py.bind] in H; [discriminate|].
      destruct (F64.Z_leb t limit); [|eauto].
      injection H as <-. apply Hstop.
    + injection H as <-. apply Hstop.
Qed.

End ExtendedPhase.

(** C1. For every completed result of [find_max_context], the recorded
    maximum context is at least the recorded default context, whatever the
    probes of the extended-window phase return. *)
Theorem default_context_le_max_context :
  forall (ep : Http.endpoint) (model : string) (timeout : Z) (r : CtxLen.results),
    CtxLen.find_max_context ep model timeout = inr r ->
    CtxLen.default_context r <= CtxLen.max_context_with_num_ctx r.
Proof.
  intros ep model timeout r. unfold CtxLen.find_max_context.
  destruct (CtxLen.phase1 ep model timeout CtxLen.test_sizes [] 0)
    as [tests1 default_max].
  destruct (CtxLen.phase2 _ _ _ _ _) as [e|st] eqn:E2; cbn [Py.bind]; [discriminate|].
  destruct (Py.int_mul_float _ F64.f0_8) as [e|scaled]; cbn [Py.bind]; [discriminate|].
  destruct (Py.int_of_float scaled) as [e|rec]; cbn [Py.bind Py.ret]; [discriminate|].
  intros H. injection H as <-. cbn [CtxLen.default_context CtxLen.max_context_with_num_ctx].
  apply phase2_monotone in E2. exact E2.
Qed.

Lemma default_context_le_max_context_witness :
  exists r,
    CtxLen.find_max_context Scenarios.ep_m1 "m1" 180 = inr r /\
    CtxLen.default_context r <= CtxLen.max_context_with_num_ctx r.
Proof.
  eexists. split.
  - vm_compute. reflexivity.
  - apply (default_context_le_max_context Scenarios.ep_m1 "m1" 180).
    vm_compute. reflexivity.
Defined.

(** C2. A probe answered with status 200 is classified by the count [t]
    of consumed input tokens against the requested size [R]: it is reported
    truncated exactly when [t < R * 0.8] in [smart_context_test.py]
    ([5 t < 4 R]) and when [t < R * 0.9] in [context_length_test.py]
    ([10 t < 9 R]), two thresholds within 0.8 to 0.9, for requested sizes
    below [2 ^ 48]; in the second script a count so large that the
    utilization overflows makes the probe fail instead.  A probe requesting
    16000 tokens by the script's estimate (window 25600 in the first
    script, target 16000 and estimate 15012 in the second) that consumed
    9000 is reported truncated by both. *)
Theorem truncated_iff_below_threshold :
  (forall ep model w timeout resp data,
      ep (Reference.smart_request model w timeout) = inr resp ->
      Http.status_code resp = 200 -> Http.json resp = inr data ->
      Reference.smart_input_approx w < 2 ^ 48 ->
      let R := Reference.smart_input_approx w in
      let t := Py.get (Http.prompt_eval_count data) 0 in
      Smart.test_context ep model w timeout = Smart.Succeeded R t (5 * t <? 4 * R)) /\
  (forall ep model target nc timeout resp data,
      ep (Reference.ctxlen_request model target nc timeout) = inr resp ->
      Http.status_code resp = 200 -> Http.json resp = inr data ->
      target < 2 ^ 48 ->
      let R := Reference.ctxlen_actual_tokens target in
      let t := Py.get (Http.prompt_eval_count data) 0 in
      CtxLen.test_single_context ep model target nc timeout
      = if Py.truediv_overflows t R
        then CtxLen.Failed target nc "integer division result too large for a float"
        else CtxLen.Succeeded target R nc t (Py.get (Http.eval_count data) 0)
               (10 * t <? 9 * R)) /\
  (forall ep model w timeout R t tr,
      Smart.test_context ep model w timeout = Smart.Succeeded R t tr ->
      R < 2 ^ 48 ->
      R = Reference.smart_input_approx w /\ (tr = true <-> 5 * t < 4 * R)) /\
  (forall ep model target nc timeout tgt R nc' t ec tr,
      CtxLen.test_single_context ep model target nc timeout
        = CtxLen.Succeeded tgt R nc' t ec tr ->
      R < 2 ^ 48 ->
      R = Reference.ctxlen_actual_tokens target /\ (tr = true <-> 10 * t < 9 * R)) /\
  (forall ep model timeout resp data,
      ep (Reference.smart_request model 25600 timeout) = inr resp ->
      Http.status_code resp = 200 -> Http.json resp = inr data ->
      Http.prompt_eval_count data = Some 9000 ->
      Smart.test_context ep model 25600 timeout = Smart.Succeeded 16000 9000 true) /\
  (forall ep model nc timeout resp data,
      ep (Reference.ctxlen_request model 16000 nc timeout) = inr resp ->
      Http.status_code resp = 200 -> Http.json resp = inr data ->
      Http.prompt_eval_count data = Some 9000 ->
      CtxLen.test_single_context ep model 16000 nc timeout
      = CtxLen.Succeeded 16000 15012 nc 9000 (Py.get (Http.eval_count data) 0) true).
Proof.
  split; [|split; [|split; [|split; [|split]]]].
  - intros ep model w timeout resp data Hep Hst Hjs HR R t.
    apply (smart_test_context_replied ep model w timeout resp data); assumption.
  - intros ep model target nc timeout resp data Hep Hst Hjs Ht R t.
    apply (ctxlen_test_single_context_replied ep model target nc timeout resp data);
      assumption.
  - intros ep model w timeout R t tr H HR.
    destruct (smart_test_context_succeeded ep model w timeout R t tr H) as [HRw Htr].
    split; [assumption|]. rewrite (Htr HR). apply Z.ltb_lt.
  - intros ep model target nc timeout tgt R nc' t ec tr H HR.
    destruct (ctxlen_test_single_context_succeeded ep _ _ _ _ _ _ _ _ _ _ H)
      as (_ & _ & HRw & Htr).
    split; [assumption|]. rewrite (Htr HR). apply Z.ltb_lt.
  - intros ep model timeout resp data Hep Hst Hjs Hcount.
    rewrite (smart_test_context_replied ep model 25600 timeout resp data Hep Hst Hjs)
      by reflexivity.
    rewrite Hcount. reflexivity.
  - intros ep model nc timeout resp data Hep Hst Hjs Hcount.
    rewrite (ctxlen_test_single_context_replied ep model 16000 nc timeout resp data
               Hep Hst Hjs) by reflexivity.
    rewrite Hcount. reflexivity.
Qed.

Lemma truncated_iff_below_threshold_witness :
  Smart.test_context Scenarios.ep_nine_thousand "m1" 25600 300
  = Smart.Succeeded 16000 9000 true /\
  CtxLen.test_single_context Scenarios.ep_nine_thousand "m1" 16000 None 180
  = CtxLen.Succeeded 16000 15012 None 9000 10 true.
Proof.
  split.
  - apply (proj1 (proj2 (proj2 (proj2 (proj2 truncated_iff_below_threshold))))
             Scenarios.ep_nine_thousand "m1"%string 300
             {| Http.status_code := 200; Http.text := "";
                Http.json := inr {| Http.prompt_eval_count := Some 9000;
                                    Http.eval_count := Some 10 |};
                Http.elapsed := F64.of_Z 2 |}
             {| Http.prompt_eval_count := Some 9000; Http.eval_count := Some 10 |});
      reflexivity.
  - apply (proj2 (proj2 (proj2 (proj2 (proj2 truncated_iff_below_threshold))))
             Scenarios.ep_nine_thousand "m1"%string None 180
             {| Http.status_code := 200; Http.text := "";
                Http.json := inr {| Http.prompt_eval_count := Some 9000;
                                    Http.eval_count := Some 10 |};
                Http.elapsed := F64.of_Z 2 |}
             {| Http.prompt_eval_count := Some 9000; Http.eval_count := Some 10 |});
      reflexivity.
Defined.

(** ** smart_context_test.py: the search loop *)

Section SearchLoop.
  Import Invariant.
  Variable ep : Http.endpoint.
  Variable model : string.

Lemma report_from_tests_succeeded tests R t tr w :
  Reference.report_from_tests (tests ++ [(Smart.Succeeded R t tr, w)]) = Smart.NotReached.
Proof. unfold Reference.report_from_tests. rewrite rev_unit. reflexivity. Qed.

Lemma loop_inv_final_ok st : loop_inv st -> final_ok st.
Proof.
  intros (Hhw & _ & Htests). unfold final_ok, report. rewrite Hhw. cbn [Z.eqb].
  split; [|congruence].
  destruct Htests as [[_ ->]|(_ & pre & R & tr & w & ->)].
  - reflexivity.
  - rewrite report_from_tests_succeeded. reflexivity.
Qed.

(** One turn of the loop body, at a window of positive requested size: a
    probe classified [Ok] keeps the invariant and, for counts in range, does
    not lower the recorded limit; any other verdict leaves a final state, and
    a failed probe leaves the recorded limit as it was. *)
Lemma search_step_inv w st st' v :
  good_window w -> loop_inv st ->
  Smart.search_step ep model w st = inr (st', v) ->
  match v with
  | Smart.Ok =>
      loop_inv st' /\
      (Smart.prev_tokens st < 2 ^ 48 -> Smart.native_limit st <= Smart.native_limit st')
  | Smart.HardFailure => final_ok st' /\ Smart.native_limit st' = Smart.native_limit st
  | _ => final_ok st'
  end.
Proof.
  intros [Hw0 Hw1] (Hhw & Hnat & Htests). unfold Smart.search_step.
  destruct (Smart.test_context ep model w Smart.default_timeout)
    as [R t tr|err] eqn:Etest.
  - destruct (smart_test_context_succeeded ep _ _ _ _ _ _ Etest) as [HR Htr].
    subst R. specialize (Htr Hw1). subst tr.
    destruct (Z.ltb_spec (5 * t) (4 * Reference.smart_input_approx w)) as [Hlt|Hge].
    + intros H. injection H as <- <-. unfold final_ok, report.
      cbn [Smart.st_hardware_limit Smart.st_tests]. rewrite Hhw. cbn [Z.eqb].
      rewrite report_from_tests_succeeded. split; [reflexivity|congruence].
    + destruct (Py.int_mul_float (Smart.prev_tokens st) F64.f1_1) as [e|limit] eqn:Emul;
        cbn [Py.bind]; [discriminate|].
      destruct (F64.Z_leb t limit && (0 <? Smart.prev_tokens st)) eqn:Eplateau.
      * intros H. injection H as <- <-. unfold final_ok, report.
        cbn [Smart.st_hardware_limit Smart.st_tests]. rewrite Hhw. cbn [Z.eqb].
        rewrite report_from_tests_succeeded. split; [reflexivity|congruence].
      * intros H. injection H as <- <-. split.
        -- unfold loop_inv. cbn [Smart.st_hardware_limit Smart.native_limit
                                   Smart.prev_tokens Smart.st_tests].
           split; [assumption|]. split; [reflexivity|]. right. split; [lia|].
           exists (Smart.st_tests st), (Reference.smart_input_approx w), false, w.
           reflexivity.
        -- cbn [Smart.native_limit]. intros Hp. rewrite Hnat.
           destruct Htests as [[Hp0 _]|[Hp0 _]]; [lia|].
           rewrite int_mul_float_in_range in Emul by (split; lia).
           injection Emul as <-.
           rewrite leb_mul_1_1 in Eplateau by (split; lia).
           apply andb_false_iff in Eplateau. destruct Eplateau as [E|E].
           ++ apply Z.leb_gt in E. lia.
           ++ apply Z.ltb_ge in E. lia.
  - intros H. injection H as <- <-. split; [|reflexivity].
    unfold final_ok, report. cbn [Smart.st_hardware_limit Smart.st_tests].
    unfold Reference.report_from_tests. rewrite rev_unit.
    destruct Htests as [[Hp0 ->]|(Hp0 & pre & R & tr & w0 & ->)].
    + rewrite Hp0. cbn. split; [reflexivity|congruence].
    + rewrite rev_unit.
      replace (Smart.prev_tokens st =? 0) with false by (symmetry; apply Z.eqb_neq; lia).
      replace (0 <? Smart.prev_tokens st) with true by (symmetry; apply Z.ltb_lt; lia).
      split; [reflexivity|]. intros _. assumption.
Qed.

Lemma good_test_sizes : Forall good_window Smart.test_sizes.
Proof. repeat constructor. Qed.

Lemma loop_inv_initial : loop_inv Smart.initial.
Proof. split; [reflexivity|]. split; [reflexivity|]. left. split; reflexivity. Qed.


(** However the loop ends, it ends in a final state. *)
Lemma search_loop_final windows :
  forall st st',
    Forall good_window windows -> loop_inv st ->
    Smart.search_loop ep model windows st = inr st' -> final_ok st'.
Proof.
  induction windows as [|w rest IH]; intros st st' Hall Hinv H; cbn [Smart.search_loop] in H.
  - injection H as <-. apply loop_inv_final_ok. assumption.
  - inversion Hall as [|w' rest' Hw Hrest]; subst.
    destruct (Smart.search_step ep model w st) as [e|[st1 v]] eqn:Estep;
      cbn [Py.bind fst snd] in H; [discriminate|].
    pose proof (search_step_inv w st st1 v Hw Hinv Estep) as Hv.
    destruct v.
    + destruct Hv as [Hinv1 _]. exact (IH st1 st' Hrest Hinv1 H).
    + injection H as <-. apply Hv.
    + injection H as <-. exact Hv.
    + injection H as <-. exact Hv.
Qed.

End SearchLoop.




(** C10. The [hardware_limit] field of [find_native_limit] is the count of
    the last successful probe before a failed one when that count is
    positive, and ["not reached"] in every other case; a count it reports
    is positive, and a failure of the very first probe is reported as
    ["not reached"]. *)
Theorem hardware_limit_from_tests :
  forall ep model r,
    Smart.find_native_limit ep model = inr r ->
    Smart.hardware_limit r = Reference.report_from_tests (Smart.tests r) /\
    (forall k, Smart.hardware_limit r = Smart.Tokens k -> 0 < k) /\
    (Smart.success (Smart.test_context ep model 4096 Smart.default_timeout) = false ->
     Smart.hardware_limit r = Smart.NotReached).
Proof.
  intros ep model r. unfold Smart.find_native_limit.
  destruct (Smart.search_loop ep model Smart.test_sizes Smart.initial) as [e|st] eqn:Eloop;
    cbn [Py.bind]; [discriminate|].
  destruct (Py.int_mul_float _ F64.f0_9) as [e|scaled]; cbn [Py.bind]; [discriminate|].
  destruct (Py.int_of_float scaled) as [e|rec]; cbn [Py.bind Py.ret]; [discriminate|].
  intros H. injection H as <-. cbn [Smart.hardware_limit Smart.tests].
  pose proof (search_loop_final ep model _ _ _ (good_test_sizes)
                (loop_inv_initial) Eloop) as [Hrep Hpos].
  unfold Invariant.report in Hrep.
  split; [exact Hrep|]. split.
  - intros k. destruct (Z.eqb_spec (Smart.st_hardware_limit st) 0); [discriminate|].
    intros Hk. injection Hk as <-. apply Hpos. assumption.
  - intros Hfail. rewrite Hrep.
    unfold Smart.test_sizes in Eloop. cbn [Smart.search_loop] in Eloop.
    unfold Smart.search_step in Eloop at 1.
    destruct (Smart.test_context ep model 4096 Smart.default_timeout); [discriminate|].
    cbn [Py.bind Py.ret fst snd] in Eloop. injection Eloop as <-. reflexivity.
Qed.

Lemma hardware_limit_from_tests_witness :
  exists r,
    Smart.find_native_limit Scenarios.ep_m1 "m1" = inr r /\
    Smart.hardware_limit r = Smart.Tokens 8180 /\
    Smart.hardware_limit r = Reference.report_from_tests (Smart.tests r).
Proof.
  eexists. split; [vm_compute; reflexivity|]. split; [reflexivity|].
  apply (hardware_limit_from_tests Scenarios.ep_m1 "m1"%string).
  vm_compute. reflexivity.
Defined.

(** ** smart_context_test.py: the per-model loop *)

Lemma run_models_map test models :
  forall all_results,
    Smart.run_models test models all_results
    = all_results ++ map (Smart.run_one test) models.
Proof.
  induction models as [|m rest IH]; intros acc; cbn [Smart.run_models map].
  - rewrite app_nil_r. reflexivity.
  - rewrite IH, <- app_assoc. reflexivity.
Qed.

(** The output regime returns a profile whatever the endpoint does, so a
    completed context search completes the model's test. *)
Lemma test_model_complete_of_profile ep model r :
  Smart.find_native_limit ep model = inr r ->
  Smart.test_model_complete ep model
  = inr {| Smart.context := r;
           Smart.output :=
             Smart.test_output_limit ep model (Z.min (Smart.native_context r) 131072) |}.
Proof. intros H. unfold Smart.test_model_complete. rewrite H. reflexivity. Qed.

(** C9. When every probe of a model fails, the search still returns a
    profile, with [native_context = 0] and the failure reason in its one test
    record; the model's test completes, and the per-model loop gives that
    model one entry, between the entries of the models before and after. *)
Theorem zero_successful_probes :
  forall ep model,
    Reference.every_probe_fails ep model ->
    exists r reason c,
      Smart.find_native_limit ep model = inr r /\
      Smart.native_context r = 0 /\
      Smart.tests r = [(Smart.Failed reason, 4096)] /\
      Smart.test_context ep model 4096 Smart.default_timeout = Smart.Failed reason /\
      Smart.test_model_complete ep model = inr c /\ Smart.context c = r /\
      forall before after,
        Smart.main ep (before ++ model :: after)
        = map (Smart.run_one (Smart.test_model_complete ep)) before
          ++ Smart.Tested c
          :: map (Smart.run_one (Smart.test_model_complete ep)) after.
Proof.
  intros ep model Hfail.
  pose proof (Hfail 4096 Smart.default_timeout) as H1.
  destruct (Smart.test_context ep model 4096 Smart.default_timeout) as [|reason] eqn:E1;
    [discriminate|].
  assert (Hr : Smart.find_native_limit ep model
               = inr {| Smart.model := model;
                        Smart.tests := [(Smart.Failed reason, 4096)];
                        Smart.native_context := 0;
                        Smart.hardware_limit := Smart.NotReached;
                        Smart.recommended_input := 0 |}).
  { unfold Smart.find_native_limit, Smart.test_sizes. cbn [Smart.search_loop].
    unfold Smart.search_step at 1. rewrite E1. reflexivity. }
  eexists. exists reason. eexists.
  split; [exact Hr|]. split; [reflexivity|]. split; [reflexivity|].
  split; [reflexivity|].
  split; [apply test_model_complete_of_profile; exact Hr|].
  split; [reflexivity|].
  intros before after. unfold Smart.main.
  replace (match before ++ model :: after with
           | [] => ["gpt-oss:20b"%string]
           | _ :: _ => before ++ model :: after
           end) with (before ++ model :: after) by (destruct before; reflexivity).
  rewrite run_models_map, map_app. cbn [app map]. unfold Smart.run_one at 2.
  rewrite (test_model_complete_of_profile _ _ _ Hr). reflexivity.
Qed.

Lemma zero_successful_probes_witness :
  exists r reason c,
    Smart.find_native_limit Scenarios.ep_refused "m1" = inr r /\
    Smart.native_context r = 0 /\
    Smart.tests r = [(Smart.Failed reason, 4096)] /\
    Smart.test_context Scenarios.ep_refused "m1" 4096 Smart.default_timeout
      = Smart.Failed reason /\
    Smart.test_model_complete Scenarios.ep_refused "m1" = inr c /\ Smart.context c = r /\
    forall before after,
      Smart.main Scenarios.ep_refused (before ++ "m1"%string :: after)
      = map (Smart.run_one (Smart.test_model_complete Scenarios.ep_refused)) before
        ++ Smart.Tested c
        :: map (Smart.run_one (Smart.test_model_complete Scenarios.ep_refused)) after.
Proof.
  apply (zero_successful_probes Scenarios.ep_refused "m1"%string).
  intros num_ctx timeout. reflexivity.
Defined.

(** Phase 1 keeps [default_max] below a bound that every answer without a
    window is below. *)
Lemma phase1_default_below ep model timeout bound sizes :
  Reference.default_below ep bound ->
  forall tests d tests' d',
    CtxLen.phase1 ep model timeout sizes tests d = (tests', d') ->
    d < bound -> d' < bound.
Proof.
  intros Hdef. induction sizes as [|s rest IH]; intros tests d tests' d' H Hd;
    cbn [CtxLen.phase1] in H.
  - injection H as _ <-. assumption.
  - destruct (CtxLen.test_single_context ep model s None timeout)
      as [tgt R nc t ec tr|tgt nc err] eqn:Et.
    + destruct tr; cbn [negb] in H.
      * injection H as _ <-. assumption.
      * apply (IH _ _ _ _ H).
        destruct (ctxlen_succeeded_reply ep _ _ _ _ _ _ _ _ _ _ Et)
          as (resp & data & Hep & Hjs & ->).
        exact (Hdef (Reference.ctxlen_request model s None timeout) resp data
                 eq_refl Hep Hjs).
    + injection H as _ <-. assumption.
Qed.

(** C5, as stated, fails in [context_length_test.py]: a server that answers
    4090 tokens at window 4096 and 8180 at window 8192, fails at window
    16384, and honours 9000 tokens without a window leaves the search with
    the maximum 9000 and no optimal window. *)
Lemma wide_default_hides_optimal_window :
  Reference.answers Scenarios.ep_m1_wide_default 4096 4090 /\
  Reference.answers Scenarios.ep_m1_wide_default 8192 8180 /\
  Reference.transport_fails Scenarios.ep_m1_wide_default 16384 /\
  exists r,
    CtxLen.find_max_context Scenarios.ep_m1_wide_default "m1" 180 = inr r /\
    CtxLen.default_context r = 9000 /\
    CtxLen.max_context_with_num_ctx r = 9000 /\
    CtxLen.optimal_num_ctx r = None.
Proof.
  split; [|split; [|split]].
  - intros rq H. unfold Scenarios.ep_m1_wide_default. rewrite H.
    eexists. eexists. repeat split.
  - intros rq H. unfold Scenarios.ep_m1_wide_default. rewrite H.
    eexists. eexists. repeat split.
  - intros rq H. unfold Scenarios.ep_m1_wide_default. rewrite H. eexists. reflexivity.
  - eexists. split; [vm_compute; reflexivity|]. repeat split.
Qed.

(** C5, amended. A model that answers 4090 tokens at window 4096 and 8180
    at window 8192, and whose connection fails at window 16384: the search
    of [smart_context_test.py] ends at that failure with
    [hardware_limit = 8180] and [native_context = 8180], the last window
    that succeeded being 8192; [find_max_context] of
    [context_length_test.py], whose windows start at 8192, returns with the
    maximum 8180 and the optimal window 8192, Phase 2 ending at the same
    failure, when every answer without a window reports fewer than 8180
    tokens. *)
Theorem scenario_fails_at_16384 :
  forall ep model,
    Reference.answers ep 4096 4090 ->
    Reference.answers ep 8192 8180 ->
    Reference.transport_fails ep 16384 ->
    (exists r msg,
        Smart.find_native_limit ep model = inr r /\
        Smart.native_context r = 8180 /\
        Smart.hardware_limit r = Smart.Tokens 8180 /\
        Smart.tests r = [(Smart.Succeeded 2560 4090 false, 4096);
                         (Smart.Succeeded 5120 8180 false, 8192);
                         (Smart.Failed msg, 16384)]) /\
    (forall timeout,
        Reference.default_below ep 8180 ->
        exists r tests1 ec msg,
          CtxLen.find_max_context ep model timeout = inr r /\
          CtxLen.default_context r < 8180 /\
          CtxLen.max_context_with_num_ctx r = 8180 /\
          CtxLen.optimal_num_ctx r = Some 8192 /\
          CtxLen.tests r
          = tests1 ++ [CtxLen.Succeeded 7372 6923 (Some 8192) 8180 ec false;
                       CtxLen.Failed 14745 (Some 16384) msg]).
Proof.
  intros ep model H4 H8 H16. split.
  - pose proof (smart_test_context_answers ep model 4096 Smart.default_timeout 4090 H4
                  ltac:(reflexivity)) as E1.
    pose proof (smart_test_context_answers ep model 8192 Smart.default_timeout 8180 H8
                  ltac:(reflexivity)) as E2.
    destruct (smart_test_context_transport ep model 16384 Smart.default_timeout H16)
      as (msg & E3).
    eexists. exists (Py.prefix 50 msg).
    unfold Smart.find_native_limit, Smart.test_sizes. cbn [Smart.search_loop].
    unfold Smart.search_step at 1. rewrite E1.
    change (5 * 4090 <? 4 * Reference.smart_input_approx 4096) with false.
    change (Py.int_mul_float (Smart.prev_tokens Smart.initial) F64.f1_1)
      with (@inr Py.exn _ (S754_zero false)).
    cbn [Py.bind Py.ret fst snd Smart.prev_tokens Smart.initial F64.Z_leb F64.compare_Z
           Z.compare Z.ltb andb].
    unfold Smart.search_step at 1. rewrite E2.
    change (5 * 8180 <? 4 * Reference.smart_input_approx 8192) with false.
    cbn [Smart.prev_tokens].
    replace (Py.int_mul_float 4090 F64.f1_1)
      with (@inr Py.exn _ (F64.mul (F64.of_Z 4090) F64.f1_1))
      by (symmetry; apply int_mul_float_in_range; unfold Reference.in_range; lia).
    cbn [Py.bind]. rewrite leb_mul_1_1 by (unfold Reference.in_range; lia).
    change (10 * 8180 <=? 11 * 4090) with false.
    cbn [Py.bind Py.ret fst snd andb].
    unfold Smart.search_step at 1. rewrite E3.
    cbn [Py.bind Py.ret fst snd Smart.prev_tokens Smart.native_limit Smart.st_tests
           Smart.st_hardware_limit app].
    replace (Py.int_mul_float 8180 F64.f0_9)
      with (@inr Py.exn _ (F64.mul (F64.of_Z 8180) F64.f0_9))
      by (symmetry; apply int_mul_float_in_range; unfold Reference.in_range; lia).
    cbn [Py.bind]. rewrite int_of_mul_0_9 by (unfold Reference.in_range; lia).
    cbn [Py.bind Py.ret]. repeat split.
  - intros timeout Hdef. unfold CtxLen.find_max_context.
    destruct (CtxLen.phase1 ep model timeout CtxLen.test_sizes [] 0)
      as [tests1 default_max] eqn:E0.
    assert (Hlt : default_max < 8180).
    { apply (phase1_default_below ep model timeout 8180 _ Hdef _ _ _ _ E0). lia. }
    unfold CtxLen.num_ctx_values. cbn [CtxLen.phase2].
    change (Py.int_mul_float 8192 F64.f0_9)
      with (@inr Py.exn _ (F64.mul (F64.of_Z 8192) F64.f0_9)).
    cbn [Py.bind]. rewrite int_of_mul_0_9 by (unfold Reference.in_range; lia).
    change (9 * 8192 / 10) with 7372. cbn [Py.bind].
    destruct (ctxlen_test_single_context_answers ep model 7372 8192 timeout 8180 H8
                ltac:(reflexivity) ltac:(reflexivity)) as (ec & E1).
    rewrite E1. change (Reference.ctxlen_actual_tokens 7372) with 6923.
    change (10 * 8180 <? 9 * 6923) with false.
    cbn [CtxLen.ext_tests CtxLen.max_with_numctx CtxLen.best_numctx].
    replace (default_max <? 8180) with true by (symmetry; apply Z.ltb_lt; assumption).
    change (Py.int_mul_float 16384 F64.f0_9)
      with (@inr Py.exn _ (F64.mul (F64.of_Z 16384) F64.f0_9)).
    cbn [Py.bind]. rewrite int_of_mul_0_9 by (unfold Reference.in_range; lia).
    change (9 * 16384 / 10) with 14745. cbn [Py.bind].
    destruct (ctxlen_test_single_context_transport ep model 14745 16384 timeout H16)
      as (msg & E2).
    rewrite E2. cbn [Py.bind Py.ret CtxLen.ext_tests CtxLen.max_with_numctx
                       CtxLen.best_numctx].
    replace (Py.int_mul_float 8180 F64.f0_8)
      with (@inr Py.exn _ (F64.mul (F64.of_Z 8180) F64.f0_8))
      by (symmetry; apply int_mul_float_in_range; unfold Reference.in_range; lia).
    cbn [Py.bind]. rewrite int_of_mul_0_8 by (unfold Reference.in_range; lia).
    cbn [Py.bind Py.ret].
    eexists. exists tests1, ec, msg. split; [reflexivity|].
    cbn [CtxLen.default_context CtxLen.max_context_with_num_ctx CtxLen.optimal_num_ctx
           CtxLen.tests].
    repeat split; [assumption|]. rewrite <- app_assoc. reflexivity.
Qed.

Lemma ep_m1_answers_4096 : Reference.answers Scenarios.ep_m1 4096 4090.
Proof.
  intros rq H. unfold Scenarios.ep_m1. rewrite H.
  eexists. eexists. repeat split.
Qed.

Lemma ep_m1_answers_8192 : Reference.answers Scenarios.ep_m1 8192 8180.
Proof.
  intros rq H. unfold Scenarios.ep_m1. rewrite H.
  eexists. eexists. repeat split.
Qed.

Lemma ep_m1_fails_16384 : Reference.transport_fails Scenarios.ep_m1 16384.
Proof.
  intros rq H. unfold Scenarios.ep_m1. rewrite H. eexists. reflexivity.
Qed.

Lemma ep_m1_default_below : Reference.default_below Scenarios.ep_m1 8180.
Proof.
  intros rq resp data H. unfold Scenarios.ep_m1. rewrite H. discriminate.
Qed.

Lemma scenario_fails_at_16384_witness :
  (exists r msg,
      Smart.find_native_limit Scenarios.ep_m1 "m1" = inr r /\
      Smart.native_context r = 8180 /\
      Smart.hardware_limit r = Smart.Tokens 8180 /\
      Smart.tests r = [(Smart.Succeeded 2560 4090 false, 4096);
                       (Smart.Succeeded 5120 8180 false, 8192);
                       (Smart.Failed msg, 16384)]) /\
  (exists r tests1 ec msg,
      CtxLen.find_max_context Scenarios.ep_m1 "m1" 180 = inr r /\
      CtxLen.default_context r < 8180 /\
      CtxLen.max_context_with_num_ctx r = 8180 /\
      CtxLen.optimal_num_ctx r = Some 8192 /\
      CtxLen.tests r
      = tests1 ++ [CtxLen.Succeeded 7372 6923 (Some 8192) 8180 ec false;
                   CtxLen.Failed 14745 (Some 16384) msg]).
Proof.
  pose proof (scenario_fails_at_16384 Scenarios.ep_m1 "m1"%string
                ep_m1_answers_4096 ep_m1_answers_8192 ep_m1_fails_16384) as H.
  split.
  - exact (proj1 H).
  - exact (proj2 H 180 ep_m1_default_below).
Defined.

(** ** The recommended operating point *)


Lemma batch_context_sizes_range : Forall Reference.in_range Batch.context_sizes.
Proof. repeat constructor; discriminate. Qed.




(** ** Failures of the executor *)




(** ** The two stop rules, in general *)

(** The output regime stops at a recorded probe exactly when its count is
    below the budget and at most eleven tenths of [max_output]; else it
    goes on with the larger of the two counts. *)
Lemma output_step_rule ep model num_ctx num_predict st resp data :
  (forall rq, ep rq = inr resp) ->
  Http.status_code resp = 200 -> Http.json resp = inr data ->
  Reference.in_range (Py.get (Http.eval_count data) 0) ->
  Reference.in_range (Smart.max_output st) ->
  let out := Py.get (Http.eval_count data) 0 in
  Smart.output_step ep model num_ctx num_predict st
  = (Smart.output_tests st
       ++ [{| Smart.rec_num_predict := num_predict; Smart.actual_output := out |}],
     if (out <? num_predict) && (10 * out <=? 11 * Smart.max_output st)
     then Smart.Break
     else Smart.Continue (Z.max (Smart.max_output st) out)).
Proof.
  intros Hep Hst Hjs Hout Hmax out. unfold Smart.output_step.
  rewrite Hep. cbn [Py.bind]. rewrite Hst, Hjs. cbn [Z.eqb Pos.eqb Py.bind].
  fold out. rewrite (float_of_int_in_range out Hout).
  replace (x <- (if SFltb F64.zero (Http.elapsed resp)
                 then inr (F64.of_Z out) else Py.ret F64.zero);;
           Py.ret (Some out)) with (@inr Py.exn _ (Some out))
    by (destruct (SFltb F64.zero (Http.elapsed resp)); reflexivity).
  destruct (out <? num_predict); cbn [andb]; [|reflexivity].
  rewrite int_mul_float_in_range by assumption. cbn [Py.bind Py.ret].
  rewrite leb_mul_1_1 by assumption.
  destruct (10 * out <=? 11 * Smart.max_output st); reflexivity.
Qed.

(** Phase 2 of [find_max_context] goes on after every probe that consumes
    more than the recorded maximum, by however little. *)
Lemma phase2_gain_continues ep model timeout w rest st scaled test_size
    tgt R nc t ec tr :
  Py.int_mul_float w F64.f0_9 = inr scaled ->
  Py.int_of_float scaled = inr test_size ->
  CtxLen.test_single_context ep model test_size (Some w) timeout
    = CtxLen.Succeeded tgt R nc t ec tr ->
  CtxLen.max_with_numctx st < t ->
  CtxLen.phase2 ep model timeout (w :: rest) st
  = CtxLen.phase2 ep model timeout rest
      {| CtxLen.ext_tests :=
           CtxLen.ext_tests st ++ [CtxLen.Succeeded tgt R nc t ec tr];
         CtxLen.max_with_numctx := t;
         CtxLen.best_numctx := Some w |}.
Proof.
  intros Hmul Hint Htest Hgain. cbn [CtxLen.phase2].
  rewrite Hmul. cbn [Py.bind]. rewrite Hint. cbn [Py.bind]. rewrite Htest.
  replace (CtxLen.max_with_numctx st <? t) with true by (symmetry; apply Z.ltb_lt; lia).
  reflexivity.
Qed.

(** ** Where the scripts part from their stated rules *)

(** C7. A model that returns 1000 output tokens for a budget of 1024 and
    1050 for a budget of 2048: the second probe meets the stop rule
    ([1050 < 2048] and [1050 <= 1000 * 1.1]) and the loop of
    [test_output_limit] breaks before it updates [max_output], which stays
    at 1000 though the records hold 1050. *)
Theorem max_output_misses_stopping_probe :
  let r := Smart.test_output_limit Scenarios.ep_output "m1" 32768 in
  Smart.output_tests r
  = [{| Smart.rec_num_predict := 1024; Smart.actual_output := 1000 |};
     {| Smart.rec_num_predict := 2048; Smart.actual_output := 1050 |}] /\
  Smart.max_output r = 1000 /\
  Reference.best_observed (Smart.output_tests r) = 1050.
Proof. vm_compute. repeat split. Qed.

(** C3. A model that consumes 30000 tokens at window 8192 and 31000 at
    window 16384, a gain below one tenth: [find_native_limit] of
    [smart_context_test.py] classifies the second probe as a plateau and
    stops, while Phase 2 of [find_max_context] of [context_length_test.py]
    takes it for an improvement, records 31000 with window 16384 and goes on
    to probe window 32768. *)
Theorem phase2_continues_below_ten_percent :
  (exists r,
      Smart.find_native_limit Scenarios.ep_ten_percent "m1" = inr r /\
      Smart.native_context r = 31000 /\
      map snd (Smart.tests r) = [4096; 8192; 16384] /\
      exists st,
        Smart.search_step Scenarios.ep_ten_percent "m1" 16384
          {| Smart.st_tests := [(Smart.Succeeded 2560 20000 false, 4096);
                                (Smart.Succeeded 5120 30000 false, 8192)];
             Smart.prev_tokens := 30000; Smart.native_limit := 30000;
             Smart.st_hardware_limit := 0 |}
        = inr (st, Smart.Plateau)) /\
  (exists r refusal,
      CtxLen.find_max_context Scenarios.ep_ten_percent "m1" 180 = inr r /\
      CtxLen.max_context_with_num_ctx r = 31000 /\
      CtxLen.optimal_num_ctx r = Some 16384 /\
      CtxLen.tests r
      = [CtxLen.Failed 2000 None refusal;
         CtxLen.Succeeded 7372 6923 (Some 8192) 30000 10 false;
         CtxLen.Succeeded 14745 13831 (Some 16384) 31000 10 false;
         CtxLen.Failed 29491 (Some 32768) refusal]).
Proof.
  split.
  - eexists. split; [vm_compute; reflexivity|]. split; [reflexivity|].
    split; [reflexivity|]. eexists. vm_compute. reflexivity.
  - eexists. eexists. split; [vm_compute; reflexivity|]. repeat split.
Qed.

(** * Further properties of the three scripts *)

(** ** smart_context_test.py: the probe and the search *)

(** X1. A successful probe of [smart_context_test.test_context] at a window
    that is a multiple of 8 (as every window of the search is) requests five
    eighths of the window, by the script's estimate, and is classified
    truncated exactly when it consumed fewer tokens than half the window. *)
Theorem smart_truncated_below_half_window :
  forall (ep : Http.endpoint) (model : string) (w timeout R t : Z) (tr : bool),
    Smart.test_context ep model w timeout = Smart.Succeeded R t tr ->
    0 <= w < 2 ^ 48 -> w mod 8 = 0 ->
    8 * R = 5 * w /\ (tr = true <-> 2 * t < w).
Proof.
  intros ep model w timeout R t tr H Hw H8.
  destruct (smart_test_context_succeeded ep _ _ _ _ _ _ H) as [HR Htr].
  assert (HR8 : 8 * R = 5 * w).
  { subst R. unfold Reference.smart_input_approx.
    pose proof (Z.div_mod w 8 ltac:(lia)) as Hd. rewrite H8 in Hd.
    assert (E2 : w / 2 = 4 * (w / 8)).
    { symmetry. apply (Z.div_unique _ _ _ 0); lia. }
    rewrite E2.
    assert (0 <= w / 8) by (apply Z.div_pos; lia).
    rewrite Z.max_r by lia.
    assert (E4 : 5 * (4 * (w / 8)) / 4 = 5 * (w / 8)).
    { symmetry. apply (Z.div_unique _ _ _ 0); lia. }
    rewrite E4. lia. }
  split; [assumption|].
  rewrite Htr by lia. rewrite Z.ltb_lt. lia.
Qed.

Lemma smart_truncated_below_half_window_witness :
  exists R t tr,
    Smart.test_context Scenarios.ep_shrinking "m1" 8192 300 = Smart.Succeeded R t tr /\
    8 * R = 5 * 8192 /\ (tr = true <-> 2 * t < 8192).
Proof.
  eexists _, _, _. split.
  - vm_compute. reflexivity.
  - apply (smart_truncated_below_half_window Scenarios.ep_shrinking "m1"%string 8192 300).
    + vm_compute. reflexivity.
    + lia.
    + reflexivity.
Defined.

(** X2. What one iteration of the search loop of [find_native_limit] does
    with a successful probe, for a previous count below [2 ^ 48]: a
    truncated probe ends the search; an untruncated one ends it as a plateau
    when the previous count is positive and the new one is at most eleven
    tenths of it; otherwise the search goes on with the new count.  In all
    three cases the probe is recorded and [native_limit] becomes its
    count. *)
Theorem search_step_verdicts :
  forall (ep : Http.endpoint) (model : string) (w : Z) (st : Smart.search) R t tr,
    Reference.in_range (Smart.prev_tokens st) ->
    Smart.test_context ep model w Smart.default_timeout = Smart.Succeeded R t tr ->
    let tests := Smart.st_tests st ++ [(Smart.Succeeded R t tr, w)] in
    let stopped :=
      {| Smart.st_tests := tests; Smart.prev_tokens := Smart.prev_tokens st;
         Smart.native_limit := t;
         Smart.st_hardware_limit := Smart.st_hardware_limit st |} in
    (tr = true ->
       Smart.search_step ep model w st = inr (stopped, Smart.NativeLimitFound)) /\
    (tr = false -> 0 < Smart.prev_tokens st -> 10 * t <= 11 * Smart.prev_tokens st ->
       Smart.search_step ep model w st = inr (stopped, Smart.Plateau)) /\
    (tr = false -> Smart.prev_tokens st = 0 \/ 11 * Smart.prev_tokens st < 10 * t ->
       Smart.search_step ep model w st
       = inr ({| Smart.st_tests := tests; Smart.prev_tokens := t;
                 Smart.native_limit := t;
                 Smart.st_hardware_limit := Smart.st_hardware_limit st |}, Smart.Ok)).
Proof.
  intros ep model w st R t tr Hprev Htest tests stopped. subst tests stopped.
  unfold Smart.search_step. rewrite Htest.
  split; [intros ->; reflexivity|].
  split.
  - intros -> Hpos Hle. rewrite int_mul_float_in_range by assumption.
    cbn [Py.bind Py.ret]. rewrite leb_mul_1_1 by assumption.
    replace (10 * t <=? 11 * Smart.prev_tokens st) with true
      by (symmetry; apply Z.leb_le; assumption).
    replace (0 <? Smart.prev_tokens st) with true
      by (symmetry; apply Z.ltb_lt; assumption).
    reflexivity.
  - intros -> Hgo. rewrite int_mul_float_in_range by assumption.
    cbn [Py.bind Py.ret]. rewrite leb_mul_1_1 by assumption.
    destruct Hgo as [H0|Hgt].
    + replace (0 <? Smart.prev_tokens st) with false
        by (symmetry; apply Z.ltb_ge; lia).
      rewrite andb_false_r. reflexivity.
    + replace (10 * t <=? 11 * Smart.prev_tokens st) with false
        by (symmetry; apply Z.leb_gt; assumption).
      reflexivity.
Qed.

Lemma search_step_verdicts_witness :
  Smart.search_step Scenarios.ep_m1 "m1" 8192
    {| Smart.st_tests := []; Smart.prev_tokens := 4090; Smart.native_limit := 4090;
       Smart.st_hardware_limit := 0 |}
  = inr ({| Smart.st_tests := [(Smart.Succeeded 5120 8180 false, 8192)];
            Smart.prev_tokens := 8180; Smart.native_limit := 8180;
            Smart.st_hardware_limit := 0 |}, Smart.Ok).
Proof.
  apply (proj2 (proj2 (search_step_verdicts Scenarios.ep_m1 "m1"%string 8192
                  {| Smart.st_tests := []; Smart.prev_tokens := 4090;
                     Smart.native_limit := 4090; Smart.st_hardware_limit := 0 |}
                  5120 8180 false
                  ltac:(unfold Reference.in_range; cbn; lia)
                  ltac:(vm_compute; reflexivity)))).
  - reflexivity.
  - right. cbn. lia.
Defined.

Lemma latest_count_snoc_succeeded tests R t tr w :
  Records.last_success_tokens (tests ++ [(Smart.Succeeded R t tr, w)]) = t.
Proof. unfold Records.last_success_tokens. rewrite rev_unit. reflexivity. Qed.

Lemma latest_count_snoc_failed tests e w :
  Records.last_success_tokens (tests ++ [(Smart.Failed e, w)])
  = Records.last_success_tokens tests.
Proof. unfold Records.last_success_tokens. rewrite rev_unit. reflexivity. Qed.

Section SearchShape.
  Variable ep : Http.endpoint.
  Variable model : string.

Lemma search_step_shape w st st' v :
  Smart.search_step ep model w st = inr (st', v) ->
  Smart.native_limit st = Records.last_success_tokens (Smart.st_tests st) ->
  exists test,
    Smart.st_tests st' = Smart.st_tests st ++ [(test, w)] /\
    (v = Smart.Ok -> Records.continued (test, w)) /\
    Smart.native_limit st' = Records.last_success_tokens (Smart.st_tests st').
Proof.
  unfold Smart.search_step. intros H Hnat.
  destruct (Smart.test_context ep model w Smart.default_timeout) as [R t tr|err].
  - destruct tr.
    + injection H as <- <-. eexists. cbn [Smart.st_tests Smart.native_limit].
      rewrite latest_count_snoc_succeeded. repeat split. discriminate.
    + destruct (Py.int_mul_float _ _) as [e|limit]; cbn [Py.bind] in H; [discriminate|].
      destruct (_ && _); injection H as <- <-; eexists;
        cbn [Smart.st_tests Smart.native_limit];
        rewrite latest_count_snoc_succeeded; repeat split;
        try discriminate.
      intros _. exists R, t. reflexivity.
  - injection H as <- <-. eexists. cbn [Smart.st_tests Smart.native_limit].
    rewrite latest_count_snoc_failed. repeat split; [discriminate|assumption].
Qed.

Lemma search_loop_shape windows :
  forall st st',
    Smart.search_loop ep model windows st = inr st' ->
    Smart.native_limit st = Records.last_success_tokens (Smart.st_tests st) ->
    exists added,
      Smart.st_tests st' = Smart.st_tests st ++ added /\
      Records.initial_segment (map snd added) windows /\
      Forall Records.continued (removelast added) /\
      (windows <> [] -> added <> []) /\
      Smart.native_limit st' = Records.last_success_tokens (Smart.st_tests st').
Proof.
  induction windows as [|w rest IH]; intros st st' H Hnat; cbn [Smart.search_loop] in H.
  - injection H as <-. exists []. rewrite app_nil_r.
    repeat split; [exists []; reflexivity|constructor|congruence|assumption].
  - destruct (Smart.search_step ep model w st) as [e|[st1 v]] eqn:Estep;
      cbn [Py.bind fst snd] in H; [discriminate|].
    destruct (search_step_shape _ _ _ _ Estep Hnat) as (test & Htests & Hok & Hnat1).
    assert (Hstop : inr st1 = inr (A:=Py.exn) st' ->
              exists added,
                Smart.st_tests st' = Smart.st_tests st ++ added /\
                Records.initial_segment (map snd added) (w :: rest) /\
                Forall Records.continued (removelast added) /\
                (w :: rest <> [] -> added <> []) /\
                Smart.native_limit st' = Records.last_success_tokens (Smart.st_tests st')).
    { intros E. injection E as <-. exists [(test, w)].
      repeat split; [assumption|exists rest; reflexivity|constructor|discriminate|assumption]. }
    destruct v; try (apply Hstop; exact H).
    destruct (IH _ _ H Hnat1) as (added & Hadd & (rest' & Hseg) & Hall & _ & Hnat').
    exists ((test, w) :: added). repeat split.
    + rewrite Hadd, Htests, <- app_assoc. reflexivity.
    + exists rest'. cbn [map snd app]. rewrite Hseg. reflexivity.
    + destruct added as [|a added']; [constructor|].
      change (removelast ((test, w) :: a :: added'))
        with ((test, w) :: removelast (a :: added')).
      constructor; [apply Hok; reflexivity|assumption].
    + discriminate.
    + assumption.
Qed.

End SearchShape.

(** X3. The test records of a profile of [find_native_limit] are not
    empty, their windows are the windows of [test_sizes] in order from the
    first on, and every record but the last is a successful probe that was
    not truncated: a failed or truncated probe can only be the last. *)
Theorem native_limit_probes_in_order :
  forall (ep : Http.endpoint) (model : string) (r : Smart.profile),
    Smart.find_native_limit ep model = inr r ->
    Smart.tests r <> [] /\
    Records.initial_segment (map snd (Smart.tests r)) Smart.test_sizes /\
    Forall Records.continued (removelast (Smart.tests r)).
Proof.
  intros ep model r. unfold Smart.find_native_limit.
  destruct (Smart.search_loop _ _ _ _) as [e|st] eqn:E; cbn [Py.bind]; [discriminate|].
  destruct (Py.int_mul_float _ _) as [e|scaled]; cbn [Py.bind]; [discriminate|].
  destruct (Py.int_of_float scaled) as [e|rec]; cbn [Py.bind Py.ret]; [discriminate|].
  intros H. injection H as <-. cbn [Smart.tests].
  destruct (search_loop_shape ep model _ _ _ E eq_refl)
    as (added & Hadd & Hseg & Hall & Hne & _).
  cbn [Smart.initial Smart.st_tests app] in Hadd. rewrite Hadd.
  repeat split; [apply Hne; discriminate|assumption|assumption].
Qed.

Lemma native_limit_probes_in_order_witness :
  exists r,
    Smart.find_native_limit Scenarios.ep_m1 "m1" = inr r /\
    Smart.tests r <> [] /\
    Records.initial_segment (map snd (Smart.tests r)) Smart.test_sizes /\
    Forall Records.continued (removelast (Smart.tests r)).
Proof.
  eexists. split.
  - vm_compute. reflexivity.
  - apply (native_limit_probes_in_order Scenarios.ep_m1 "m1"%string).
    vm_compute. reflexivity.
Defined.

(** X4. [native_context] of a profile is the count of the last successful
    probe among its test records, and 0 when no probe succeeded. *)
Theorem native_context_is_last_success :
  forall (ep : Http.endpoint) (model : string) (r : Smart.profile),
    Smart.find_native_limit ep model = inr r ->
    Smart.native_context r = Records.last_success_tokens (Smart.tests r).
Proof.
  intros ep model r. unfold Smart.find_native_limit.
  destruct (Smart.search_loop _ _ _ _) as [e|st] eqn:E; cbn [Py.bind]; [discriminate|].
  destruct (Py.int_mul_float _ _) as [e|scaled]; cbn [Py.bind]; [discriminate|].
  destruct (Py.int_of_float scaled) as [e|rec]; cbn [Py.bind Py.ret]; [discriminate|].
  intros H. injection H as <-. cbn [Smart.tests Smart.native_context].
  destruct (search_loop_shape ep model _ _ _ E eq_refl) as (added & _ & _ & _ & _ & Hnat).
  exact Hnat.
Qed.

Lemma native_context_is_last_success_witness :
  exists r,
    Smart.find_native_limit Scenarios.ep_shrinking "m1" = inr r /\
    Smart.native_context r = Records.last_success_tokens (Smart.tests r).
Proof.
  eexists. split.
  - vm_compute. reflexivity.
  - apply (native_context_is_last_success Scenarios.ep_shrinking "m1"%string).
    vm_compute. reflexivity.
Defined.

Section Totality.
  Variable ep : Http.endpoint.
  Hypothesis Hcounts : Records.counts_in_range ep.

Lemma smart_test_context_count model w timeout R t tr :
  Smart.test_context ep model w timeout = Smart.Succeeded R t tr ->
  Reference.in_range t.
Proof.
  unfold Smart.test_context.
  destruct (ep _) as [e|resp] eqn:Eep; cbn [Py.bind]; [discriminate|].
  destruct (Http.status_code resp =? 200); [|discriminate].
  destruct (Http.json resp) as [e|data] eqn:Ejs; cbn [Py.bind]; [discriminate|].
  destruct (Py.int_mul_float _ F64.f0_8) as [e|limit]; cbn [Py.bind Py.ret];
    [discriminate|].
  intros H. injection H as _ <- _. exact (proj1 (Hcounts _ _ _ Eep Ejs)).
Qed.

Lemma smart_search_loop_total model windows :
  forall st,
    Reference.in_range (Smart.prev_tokens st) ->
    Reference.in_range (Smart.native_limit st) ->
    exists st',
      Smart.search_loop ep model windows st = inr st' /\
      Reference.in_range (Smart.native_limit st').
Proof.
  induction windows as [|w rest IH]; intros st Hprev Hnat; cbn [Smart.search_loop].
  - exists st. split; [reflexivity|assumption].
  - unfold Smart.search_step.
    destruct (Smart.test_context ep model w Smart.default_timeout) as [R t tr|err] eqn:Et.
    + pose proof (smart_test_context_count _ _ _ _ _ _ Et) as Ht.
      destruct tr; cbn [Py.bind Py.ret fst snd].
      * eexists. split; [reflexivity|assumption].
      * rewrite int_mul_float_in_range by assumption. cbn [Py.bind Py.ret].
        destruct (_ && _); cbn [Py.bind Py.ret fst snd].
        -- eexists. split; [reflexivity|assumption].
        -- apply IH; assumption.
    + cbn [Py.bind Py.ret fst snd]. eexists. split; [reflexivity|assumption].
Qed.

Lemma smart_find_native_limit_total model :
  exists r, Smart.find_native_limit ep model = inr r.
Proof.
  unfold Smart.find_native_limit.
  destruct (smart_search_loop_total model Smart.test_sizes Smart.initial)
    as (st & -> & Hnat); try (split; [reflexivity|reflexivity]).
  cbn [Py.bind]. rewrite int_mul_float_in_range by assumption. cbn [Py.bind].
  rewrite int_of_mul_0_9 by assumption. cbn [Py.bind Py.ret]. eexists. reflexivity.
Qed.

End Totality.

(** X5. Against an endpoint whose counters all lie between 0 and [2 ^ 48],
    [find_native_limit] and [test_model_complete] return a result for every
    model, so that [main] records no error entry. *)
Theorem smart_never_raises_in_range :
  forall ep : Http.endpoint,
    Records.counts_in_range ep ->
    forall model argv,
      (exists r, Smart.find_native_limit ep model = inr r) /\
      (exists c, Smart.test_model_complete ep model = inr c) /\
      Forall (fun e => exists c, e = Smart.Tested c) (Smart.main ep argv).
Proof.
  intros ep Hc model argv.
  assert (Hall : forall m, exists c, Smart.test_model_complete ep m = inr c).
  { intros m. destruct (smart_find_native_limit_total ep Hc m) as (r & Hr).
    unfold Smart.test_model_complete. rewrite Hr. cbn [Py.bind Py.ret].
    eexists. reflexivity. }
  split; [apply smart_find_native_limit_total; assumption|].
  split; [apply Hall|].
  unfold Smart.main. rewrite run_models_map. cbn [app].
  apply Forall_forall. intros e He. apply in_map_iff in He.
  destruct He as (m & <- & _). unfold Smart.run_one.
  destruct (Hall m) as (c & ->). exists c. reflexivity.
Qed.

Lemma ep_steady_counts_in_range : Records.counts_in_range Records.ep_steady.
Proof.
  intros rq resp data H1 H2. injection H1 as <-. cbn in H2. injection H2 as <-.
  cbn. unfold Reference.in_range. split; lia.
Qed.

Lemma smart_never_raises_in_range_witness :
  Records.counts_in_range Records.ep_steady /\
  (exists r, Smart.find_native_limit Records.ep_steady "m1" = inr r) /\
  (exists c, Smart.test_model_complete Records.ep_steady "m1" = inr c) /\
  Forall (fun e => exists c, e = Smart.Tested c) (Smart.main Records.ep_steady ["m1"%string]).
Proof.
  split.
  - exact ep_steady_counts_in_range.
  - apply (smart_never_raises_in_range Records.ep_steady ep_steady_counts_in_range).
Defined.

(** ** smart_context_test.py: the output regime and the per-model loop *)



Lemma best_observed_snoc tests r :
  Reference.best_observed (tests ++ [r])
  = Z.max (Reference.best_observed tests) (Smart.actual_output r).
Proof.
  unfold Reference.best_observed. induction tests as [|a l IH]; cbn [app map fold_right].
  - lia.
  - rewrite IH. lia.
Qed.

Lemma best_observed_nonneg tests : 0 <= Reference.best_observed tests.
Proof.
  unfold Reference.best_observed. induction tests as [|a l IH]; cbn [map fold_right]; lia.
Qed.

Section OutputShape.
  Variable ep : Http.endpoint.
  Variables (model : string) (num_ctx : Z).

Lemma output_step_shape num_predict st tests c :
  Smart.output_step ep model num_ctx num_predict st = (tests, c) ->
  (tests = Smart.output_tests st /\ c = Smart.Break) \/
  (exists out,
      tests = Smart.output_tests st
                ++ [{| Smart.rec_num_predict := num_predict; Smart.actual_output := out |}] /\
      (c = Smart.Break \/ c = Smart.Continue (Z.max (Smart.max_output st) out))).
Proof.
  unfold Smart.output_step.
  match goal with |- context [match ?b with inl _ => _ | inr _ => _ end] =>
    destruct b as [e|[out|]] end.
  - intros H. injection H as <- <-. left. split; reflexivity.
  - intros H. right. exists out.
    destruct (out <? num_predict).
    + destruct (Py.int_mul_float _ _) as [e|limit]; cbn [Py.bind Py.ret] in H.
      * injection H as <- <-. split; auto.
      * destruct (F64.Z_leb out limit); injection H as <- <-; split; auto.
    + cbn [Py.ret] in H. injection H as <- <-. split; auto.
  - intros H. injection H as <- <-. left. split; reflexivity.
Qed.

Lemma output_loop_shape budgets :
  forall st,
    Smart.max_output st = Reference.best_observed (Smart.output_tests st) ->
    let r := Smart.output_loop ep model num_ctx budgets st in
    exists added,
      Smart.output_tests r = Smart.output_tests st ++ added /\
      Records.initial_segment (map Smart.rec_num_predict added) budgets /\
      (Smart.max_output r = Reference.best_observed (Smart.output_tests r) \/
       Smart.max_output r = Reference.best_observed (removelast (Smart.output_tests r))).
Proof.
  induction budgets as [|np rest IH]; intros st Hinv; cbn [Smart.output_loop]; cbv zeta.
  - exists []. rewrite app_nil_r. repeat split; [exists []; reflexivity|left; assumption].
  - destruct (Smart.output_step ep model num_ctx np st) as [tests c] eqn:E.
    apply output_step_shape in E. destruct E as [[-> ->]|(out & -> & [->| ->])].
    + exists []. cbn [Smart.output_tests Smart.max_output]. rewrite app_nil_r.
      repeat split; [exists (np :: rest); reflexivity|left; assumption].
    + eexists [_]. cbn [Smart.output_tests Smart.max_output].
      repeat split; [exists rest; reflexivity|].
      right. rewrite removelast_last. assumption.
    + match goal with |- context [Smart.output_loop _ _ _ _ ?s] =>
        destruct (IH s) as (added & Hadd & (rest' & Hseg) & Hmax) end.
      { cbn [Smart.output_tests Smart.max_output]. rewrite best_observed_snoc, Hinv.
        reflexivity. }
      cbn [Smart.output_tests] in Hadd.
      eexists (_ :: added). repeat split.
      * rewrite Hadd, <- app_assoc. reflexivity.
      * exists rest'. cbn [map app Smart.rec_num_predict]. rewrite Hseg. reflexivity.
      * exact Hmax.
Qed.

End OutputShape.

Lemma best_observed_removelast tests :
  Reference.best_observed (removelast tests) <= Reference.best_observed tests.
Proof.
  induction tests as [|a l IH] using rev_ind.
  - cbn. lia.
  - rewrite removelast_last, best_observed_snoc. lia.
Qed.

(** X7. For every endpoint, the budgets recorded by [test_output_limit]
    are the budgets of the loop in order from the first on, and [max_output]
    is the largest recorded count either over all the records or over all
    but the last; it is never negative and never above the largest recorded
    count. *)
Theorem max_output_is_best_but_last :
  forall (ep : Http.endpoint) (model : string) (num_ctx : Z),
    let r := Smart.test_output_limit ep model num_ctx in
    Records.initial_segment (map Smart.rec_num_predict (Smart.output_tests r))
      Smart.output_budgets /\
    (Smart.max_output r = Reference.best_observed (Smart.output_tests r) \/
     Smart.max_output r = Reference.best_observed (removelast (Smart.output_tests r))) /\
    0 <= Smart.max_output r <= Reference.best_observed (Smart.output_tests r).
Proof.
  intros ep model num_ctx r. subst r. unfold Smart.test_output_limit.
  destruct (output_loop_shape ep model num_ctx Smart.output_budgets
              {| Smart.output_tests := []; Smart.max_output := 0 |} eq_refl)
    as (added & Hadd & Hseg & Hmax).
  cbn [Smart.output_tests app] in Hadd. rewrite Hadd in *.
  split; [assumption|]. split; [assumption|].
  pose proof (best_observed_removelast added).
  pose proof (best_observed_nonneg added).
  pose proof (best_observed_nonneg (removelast added)).
  destruct Hmax as [-> | ->]; lia.
Qed.

(** The profile names the model it was asked for. *)
Lemma find_native_limit_model ep model r :
  Smart.find_native_limit ep model = inr r -> Smart.model r = model.
Proof.
  unfold Smart.find_native_limit.
  destruct (Smart.search_loop _ _ _ _) as [e|st]; cbn [Py.bind]; [discriminate|].
  destruct (Py.int_mul_float _ _) as [e|scaled]; cbn [Py.bind]; [discriminate|].
  destruct (Py.int_of_float scaled) as [e|rec]; cbn [Py.bind Py.ret]; [discriminate|].
  intros H. injection H as <-. reflexivity.
Qed.

(** X8. [main] of [smart_context_test.py] returns one entry per model, in
    the order of the arguments, each naming its model, whether the test
    returned or raised; without arguments the one model is
    ["gpt-oss:20b"]. *)
Theorem main_one_entry_per_model :
  forall (ep : Http.endpoint) (argv : list string),
    map Records.entry_model (Smart.main ep argv)
    = match argv with [] => ["gpt-oss:20b"%string] | _ => argv end.
Proof.
  intros ep argv. unfold Smart.main. rewrite run_models_map. cbn [app].
  rewrite map_map.
  generalize (match argv with [] => ["gpt-oss:20b"%string] | _ => argv end).
  intros models. induction models as [|m rest IH]; cbn [map]; [reflexivity|].
  rewrite IH. f_equal. unfold Smart.run_one, Smart.test_model_complete.
  destruct (Smart.find_native_limit ep m) as [e|r] eqn:E; cbn [Py.bind Py.ret]; [reflexivity|].
  cbn [Records.entry_model Smart.context]. exact (find_native_limit_model _ _ _ E).
Qed.

(** ** context_length_test.py: the prompt *)

(** X9. For every target below 24, zero and negative ones included,
    [generate_test_prompt] returns the prompt with a single copy of the
    base sentence, estimated at 27 tokens by [count_tokens_approx]. *)
Theorem small_targets_share_one_prompt :
  forall target : Z,
    target < 24 ->
    CtxLen.generate_test_prompt target = CtxLen.generate_test_prompt 12 /\
    CtxLen.count_tokens_approx (CtxLen.generate_test_prompt target) = 27.
Proof.
  intros target H.
  assert (E : CtxLen.generate_test_prompt target = CtxLen.generate_test_prompt 12).
  { unfold CtxLen.generate_test_prompt.
    assert (Hq : target / 12 <= 1).
    { assert (target / 12 < 2) by (apply Z.div_lt_upper_bound; lia). lia. }
    rewrite (Z.max_l 1 (target / 12)) by lia. reflexivity. }
  split; [assumption|]. rewrite E. vm_compute. reflexivity.
Qed.

Lemma small_targets_share_one_prompt_witness :
  CtxLen.generate_test_prompt 0 = CtxLen.generate_test_prompt 12 /\
  CtxLen.count_tokens_approx (CtxLen.generate_test_prompt 0) = 27.
Proof. apply (small_targets_share_one_prompt 0). lia. Defined.

(** X10. For a target of at least 12, the estimate [count_tokens_approx]
    gives of the generated prompt lies between [(15 target + 83) / 16] and
    [(15 target + 260) / 16]; it is below the target from 261 on, and it
    does not decrease when the target grows. *)
Theorem prompt_estimate_bounds :
  forall target : Z,
    12 <= target ->
    let estimate := CtxLen.count_tokens_approx (CtxLen.generate_test_prompt target) in
    15 * target + 83 <= 16 * estimate <= 15 * target + 260 /\
    (261 <= target -> estimate < target) /\
    (forall larger, target <= larger ->
       estimate <= CtxLen.count_tokens_approx (CtxLen.generate_test_prompt larger)).
Proof.
  intros target H estimate. subst estimate.
  rewrite ctxlen_prompt_tokens. fold (Reference.ctxlen_actual_tokens target).
  unfold Reference.ctxlen_actual_tokens.
  pose proof (Z.div_mod target 12 ltac:(lia)) as Hd.
  pose proof (Z.mod_pos_bound target 12 ltac:(lia)) as Hm.
  assert (Hq : 1 <= target / 12) by (apply Z.div_le_lower_bound; lia).
  rewrite (Z.max_r 1 (target / 12)) by lia.
  set (q := target / 12) in *.
  pose proof (Z.div_mod (65 + 45 * q) 4 ltac:(lia)) as Hd4.
  pose proof (Z.mod_pos_bound (65 + 45 * q) 4 ltac:(lia)) as Hm4.
  split; [lia|]. split; [lia|].
  intros larger Hle. rewrite ctxlen_prompt_tokens.
  apply Z.div_le_mono; [lia|].
  assert (q <= larger / 12) by (apply Z.div_le_mono; lia).
  lia.
Qed.

Lemma prompt_estimate_bounds_witness :
  let estimate := CtxLen.count_tokens_approx (CtxLen.generate_test_prompt 2000) in
  15 * 2000 + 83 <= 16 * estimate <= 15 * 2000 + 260 /\
  (261 <= 2000 -> estimate < 2000) /\
  (forall larger, 2000 <= larger ->
     estimate <= CtxLen.count_tokens_approx (CtxLen.generate_test_prompt larger)).
Proof. apply (prompt_estimate_bounds 2000). lia. Defined.

(** ** context_length_test.py: the two phases *)

Lemma default_scan_stops tail d :
  match tail with [] => True | o :: _ => Records.ends_scan o end ->
  Records.default_scan tail d = d.
Proof.
  destruct tail as [|o rest]; [reflexivity|].
  destruct o as [tgt R [w|] t ec [|]|tgt nc err]; cbn; intros H;
    try reflexivity; contradiction.
Qed.

Section Phases.
  Variable ep : Http.endpoint.
  Variables (model : string) (timeout : Z).

Lemma untruncated_count_positive target nc tgt R nc' t ec :
  CtxLen.test_single_context ep model target nc timeout
    = CtxLen.Succeeded tgt R nc' t ec false ->
  target < 2 ^ 48 -> 0 < t.
Proof.
  intros H Ht.
  destruct (ctxlen_test_single_context_succeeded ep _ _ _ _ _ _ _ _ _ _ H)
    as (_ & _ & HR & Htr).
  pose proof (ctxlen_actual_tokens_range target Ht) as [_ Hhi].
  assert (Hlow : 27 <= Reference.ctxlen_actual_tokens target).
  { unfold Reference.ctxlen_actual_tokens. apply Z.div_le_lower_bound; lia. }
  rewrite <- HR in Hhi, Hlow. specialize (Htr Hhi).
  symmetry in Htr. apply Z.ltb_ge in Htr. lia.
Qed.

Lemma phase1_scan sizes :
  forall tests d tests' d',
    CtxLen.phase1 ep model timeout sizes tests d = (tests', d') ->
    Forall (fun s => s < 2 ^ 48) sizes -> 0 <= d ->
    0 <= d' /\
    exists added,
      tests' = tests ++ added /\
      forall tail,
        match tail with [] => True | o :: _ => Records.ends_scan o end ->
        Records.default_scan (added ++ tail) d = d'.
Proof.
  induction sizes as [|s rest IH]; intros tests d tests' d' H Hall Hd;
    cbn [CtxLen.phase1] in H.
  - injection H as <- <-. split; [assumption|]. exists []. rewrite app_nil_r.
    split; [reflexivity|]. intros tail Htail. apply default_scan_stops. assumption.
  - inversion Hall as [|x l Hs Hrest]; subst.
    destruct (CtxLen.test_single_context ep model s None timeout)
      as [tgt R nc t ec tr|tgt nc err] eqn:Et.
    + destruct (ctxlen_test_single_context_succeeded ep _ _ _ _ _ _ _ _ _ _ Et)
        as (_ & -> & _ & _).
      destruct tr; cbn [negb] in H.
      * injection H as <- <-. split; [assumption|]. eexists [_].
        split; [reflexivity|]. intros tail _. reflexivity.
      * pose proof (untruncated_count_positive _ _ _ _ _ _ _ Et Hs) as Hpos.
        destruct (IH _ _ _ _ H Hrest ltac:(lia)) as (Hd' & added & -> & Hscan).
        split; [assumption|]. eexists (_ :: added).
        split; [rewrite <- app_assoc; reflexivity|].
        intros tail Htail. cbn [app Records.default_scan]. apply Hscan. assumption.
    + injection H as <- <-. split; [assumption|]. eexists [_].
      split; [reflexivity|]. intros tail _. reflexivity.
Qed.

Lemma phase2_best_window all windows :
  forall st st',
    CtxLen.phase2 ep model timeout windows st = inr st' ->
    incl windows all ->
    forall d0,
      d0 <= CtxLen.max_with_numctx st ->
      Records.best_window_inv d0 all st ->
      Records.best_window_inv d0 all st' /\
      exists added,
        CtxLen.ext_tests st' = CtxLen.ext_tests st ++ added /\
        Forall Records.ends_scan added.
Proof.
  induction windows as [|w rest IH]; intros st st' H Hincl d0 Hd0 Hinv;
    cbn [CtxLen.phase2] in H.
  - injection H as <-. split; [assumption|]. exists []. rewrite app_nil_r.
    split; [reflexivity|constructor].
  - destruct (Py.int_mul_float w F64.f0_9) as [e|scaled]; cbn [Py.bind] in H;
      [discriminate|].
    destruct (Py.int_of_float scaled) as [e|test_size]; cbn [Py.bind] in H;
      [discriminate|].
    assert (Hw : In w all) by (apply Hincl; left; reflexivity).
    assert (Hrest : incl rest all) by (intros x Hx; apply Hincl; right; assumption).
    destruct (CtxLen.test_single_context ep model test_size (Some w) timeout)
      as [tgt R nc t ec tr|tgt nc err] eqn:Et.
    + destruct (ctxlen_test_single_context_succeeded ep _ _ _ _ _ _ _ _ _ _ Et)
        as (_ & -> & _ & _).
      assert (Hends : Records.ends_scan (CtxLen.Succeeded tgt R (Some w) t ec tr))
        by exact I.
      assert (Hkeep : Records.best_window_inv d0 all
                {| CtxLen.ext_tests :=
                     CtxLen.ext_tests st ++ [CtxLen.Succeeded tgt R (Some w) t ec tr];
                   CtxLen.max_with_numctx := CtxLen.max_with_numctx st;
                   CtxLen.best_numctx := CtxLen.best_numctx st |}).
      { unfold Records.best_window_inv in *. cbn [CtxLen.best_numctx CtxLen.max_with_numctx
          CtxLen.ext_tests]. destruct (CtxLen.best_numctx st) as [b|]; [|assumption].
        destruct Hinv as (Hb & Hlt & Hex). repeat split; try assumption.
        apply Exists_app. left. assumption. }
      destruct (Z.ltb_spec (CtxLen.max_with_numctx st) t) as [Hlt|Hge].
      * edestruct (IH _ _ H Hrest d0) as (Hinv' & added & Hadd & Hall).
        { cbn [CtxLen.max_with_numctx]. lia. }
        { unfold Records.best_window_inv. cbn [CtxLen.best_numctx CtxLen.max_with_numctx
            CtxLen.ext_tests]. repeat split; [assumption|lia|].
          apply Exists_app. right. apply Exists_cons_hd. exists tgt, R, ec, tr. reflexivity. }
        split; [assumption|]. eexists (_ :: added). cbn [CtxLen.ext_tests] in Hadd.
        split; [rewrite Hadd, <- app_assoc; reflexivity|]. constructor; assumption.
      * destruct (Py.int_mul_float (CtxLen.max_with_numctx st) F64.f1_1)
          as [e|limit]; cbn [Py.bind] in H; [discriminate|].
        destruct (F64.Z_leb t limit).
        -- injection H as <-. split; [assumption|]. eexists [_].
           split; [reflexivity|]. constructor; [assumption|constructor].
        -- edestruct (IH _ _ H Hrest d0) as (Hinv' & added & Hadd & Hall).
           { cbn [CtxLen.max_with_numctx]. lia. }
           { assumption. }
           split; [assumption|]. eexists (_ :: added). cbn [CtxLen.ext_tests] in Hadd.
           split; [rewrite Hadd, <- app_assoc; reflexivity|]. constructor; assumption.
    + injection H as <-. split.
      * unfold Records.best_window_inv in *. cbn [CtxLen.best_numctx CtxLen.max_with_numctx
          CtxLen.ext_tests]. destruct (CtxLen.best_numctx st) as [b|]; [|assumption].
        destruct Hinv as (Hb & Hlt & Hex). repeat split; try assumption.
        apply Exists_app. left. assumption.
      * eexists [_]. split; [reflexivity|]. constructor; [exact I|constructor].
Qed.

End Phases.

Lemma ctxlen_test_sizes_range : Forall (fun s => s < 2 ^ 48) CtxLen.test_sizes.
Proof. repeat constructor. Qed.

Ltac open_find_max_context E1 E2 :=
  unfold CtxLen.find_max_context;
  match goal with |- context [CtxLen.phase1 ?ep ?m ?t ?s ?ts ?d] =>
    destruct (CtxLen.phase1 ep m t s ts d) as [tests1 default_max] eqn:E1 end;
  match goal with |- context [CtxLen.phase2 ?ep ?m ?t ?ws ?st0] =>
    destruct (CtxLen.phase2 ep m t ws st0) as [e|st] eqn:E2; cbn [Py.bind];
      [discriminate|] end;
  destruct (Py.int_mul_float _ F64.f0_8) as [e|scaled]; cbn [Py.bind]; [discriminate|];
  destruct (Py.int_of_float scaled) as [e|rec]; cbn [Py.bind Py.ret]; [discriminate|].

(** X11. [default_context] of a result of [find_max_context] can be read
    off its test records: it is the count of the last of the leading
    default-window probes that succeeded without truncation, and 0 when the
    first probe failed or was truncated.  It is never negative. *)
Theorem default_context_from_tests :
  forall (ep : Http.endpoint) (model : string) (timeout : Z) (r : CtxLen.results),
    CtxLen.find_max_context ep model timeout = inr r ->
    CtxLen.default_context r = Records.default_scan (CtxLen.tests r) 0 /\
    0 <= CtxLen.default_context r.
Proof.
  intros ep model timeout r. open_find_max_context E1 E2.
  intros H. injection H as <-. cbn [CtxLen.default_context CtxLen.tests].
  destruct (phase1_scan ep model timeout _ _ _ _ _ E1 ctxlen_test_sizes_range ltac:(lia))
    as (Hd & added1 & Hadd & Hscan).
  cbn [app] in Hadd. subst tests1.
  edestruct (phase2_best_window ep model timeout CtxLen.num_ctx_values _ _ _ E2)
    as (_ & added2 & Hadd2 & Hall2).
  { apply incl_refl. }
  { cbn [CtxLen.max_with_numctx]. apply Z.le_refl. }
  { reflexivity. }
  cbn [CtxLen.ext_tests] in Hadd2. rewrite Hadd2. split; [|assumption].
  symmetry. apply Hscan. destruct Hall2; [exact I|assumption].
Qed.

Lemma default_context_from_tests_witness :
  exists r,
    CtxLen.find_max_context Records.ep_steady "m1" 180 = inr r /\
    CtxLen.default_context r = Records.default_scan (CtxLen.tests r) 0 /\
    0 <= CtxLen.default_context r.
Proof.
  eexists. split.
  - vm_compute. reflexivity.
  - apply (default_context_from_tests Records.ep_steady "m1"%string 180).
    vm_compute. reflexivity.
Defined.

(** X12. In a result of [find_max_context], [optimal_num_ctx] is absent
    exactly when no window improved on the default, the maximum then being
    the default context; otherwise it is one of the windows of
    [num_ctx_values], the maximum is larger than the default context, and
    the records hold a successful probe at that window with the maximum as
    its count. *)
Theorem optimal_num_ctx_is_recorded :
  forall (ep : Http.endpoint) (model : string) (timeout : Z) (r : CtxLen.results),
    CtxLen.find_max_context ep model timeout = inr r ->
    match CtxLen.optimal_num_ctx r with
    | None => CtxLen.max_context_with_num_ctx r = CtxLen.default_context r
    | Some w =>
        In w CtxLen.num_ctx_values /\
        CtxLen.default_context r < CtxLen.max_context_with_num_ctx r /\
        Exists (Records.window_probe w (CtxLen.max_context_with_num_ctx r)) (CtxLen.tests r)
    end.
Proof.
  intros ep model timeout r. open_find_max_context E1 E2.
  intros H. injection H as <-.
  cbn [CtxLen.default_context CtxLen.tests CtxLen.optimal_num_ctx
       CtxLen.max_context_with_num_ctx].
  edestruct (phase2_best_window ep model timeout CtxLen.num_ctx_values _ _ _ E2)
    as (Hinv & _).
  { apply incl_refl. }
  { cbn [CtxLen.max_with_numctx]. apply Z.le_refl. }
  { reflexivity. }
  exact Hinv.
Qed.

Lemma optimal_num_ctx_is_recorded_witness :
  exists r,
    CtxLen.find_max_context Scenarios.ep_m1 "m1" 180 = inr r /\
    match CtxLen.optimal_num_ctx r with
    | None => CtxLen.max_context_with_num_ctx r = CtxLen.default_context r
    | Some w =>
        In w CtxLen.num_ctx_values /\
        CtxLen.default_context r < CtxLen.max_context_with_num_ctx r /\
        Exists (Records.window_probe w (CtxLen.max_context_with_num_ctx r)) (CtxLen.tests r)
    end.
Proof.
  eexists. split.
  - vm_compute. reflexivity.
  - apply (optimal_num_ctx_is_recorded Scenarios.ep_m1 "m1"%string 180).
    vm_compute. reflexivity.
Defined.

(** X13. One iteration of Phase 2 of [find_max_context], for a window
    and a recorded maximum below [2 ^ 48]: the prompt targets nine tenths
    of the window; a successful probe that consumed no more than the
    recorded maximum ends the phase, leaving the maximum and the best
    window as they were; one that consumed more becomes the new maximum,
    its window the best window, and the phase goes on. *)
Theorem phase2_probe_rule :
  forall (ep : Http.endpoint) (model : string) (timeout w : Z) (rest : list Z)
         (st : CtxLen.extended) tgt R nc t ec tr,
    Reference.in_range w ->
    Reference.in_range (CtxLen.max_with_numctx st) ->
    CtxLen.test_single_context ep model (9 * w / 10) (Some w) timeout
      = CtxLen.Succeeded tgt R nc t ec tr ->
    (t <= CtxLen.max_with_numctx st ->
       CtxLen.phase2 ep model timeout (w :: rest) st
       = inr {| CtxLen.ext_tests :=
                  CtxLen.ext_tests st ++ [CtxLen.Succeeded tgt R nc t ec tr];
                CtxLen.max_with_numctx := CtxLen.max_with_numctx st;
                CtxLen.best_numctx := CtxLen.best_numctx st |}) /\
    (CtxLen.max_with_numctx st < t ->
       CtxLen.phase2 ep model timeout (w :: rest) st
       = CtxLen.phase2 ep model timeout rest
           {| CtxLen.ext_tests :=
                CtxLen.ext_tests st ++ [CtxLen.Succeeded tgt R nc t ec tr];
              CtxLen.max_with_numctx := t;
              CtxLen.best_numctx := Some w |}).
Proof.
  intros ep model timeout w rest st tgt R nc t ec tr Hw Hmax Htest.
  split; intros Ht; cbn [CtxLen.phase2];
    rewrite int_mul_float_in_range by assumption; cbn [Py.bind];
    rewrite int_of_mul_0_9 by assumption; cbn [Py.bind]; rewrite Htest.
  - replace (CtxLen.max_with_numctx st <? t) with false
      by (symmetry; apply Z.ltb_ge; lia).
    rewrite int_mul_float_in_range by assumption. cbn [Py.bind].
    rewrite leb_mul_1_1 by assumption.
    replace (10 * t <=? 11 * CtxLen.max_with_numctx st) with true; [reflexivity|].
    symmetry. apply Z.leb_le. destruct Hmax. lia.
  - replace (CtxLen.max_with_numctx st <? t) with true
      by (symmetry; apply Z.ltb_lt; lia).
    reflexivity.
Qed.

Lemma phase2_probe_rule_witness :
  CtxLen.phase2 Scenarios.ep_m1 "m1" 180 [8192; 16384]
    {| CtxLen.ext_tests := []; CtxLen.max_with_numctx := 9000;
       CtxLen.best_numctx := None |}
  = inr {| CtxLen.ext_tests := [CtxLen.Succeeded 7372 6923 (Some 8192) 8180 10 false];
           CtxLen.max_with_numctx := 9000;
           CtxLen.best_numctx := None |}.
Proof.
  apply (proj1 (phase2_probe_rule Scenarios.ep_m1 "m1"%string 180 8192 [16384]
                  {| CtxLen.ext_tests := []; CtxLen.max_with_numctx := 9000;
                     CtxLen.best_numctx := None |}
                  7372 6923 (Some 8192) 8180 10 false
                  ltac:(unfold Reference.in_range; lia)
                  ltac:(unfold Reference.in_range; cbn; lia)
                  ltac:(vm_compute; reflexivity))).
  cbn. lia.
Defined.

Section Layout.
  Variable ep : Http.endpoint.
  Variables (model : string) (timeout : Z).

Lemma test_single_context_key target nc :
  Records.probe_key (CtxLen.test_single_context ep model target nc timeout)
  = (target, nc).
Proof.
  unfold CtxLen.test_single_context.
  destruct (ep _) as [e|resp]; cbn [Py.bind].
  { destruct (Py.is_timeout e); reflexivity. }
  destruct (Http.status_code resp =? 200); [|reflexivity].
  destruct (Http.json resp) as [e|data]; cbn [Py.bind].
  { destruct (Py.is_timeout e); reflexivity. }
  destruct (Py.int_mul_float _ F64.f0_9) as [e|limit]; cbn [Py.bind Py.ret].
  { destruct (Py.is_timeout e); reflexivity. }
  destruct (_ && _); cbn [Py.raise Py.is_timeout]; reflexivity.
Qed.

Lemma phase1_layout sizes :
  forall tests d tests' d',
    CtxLen.phase1 ep model timeout sizes tests d = (tests', d') ->
    exists added,
      tests' = tests ++ added /\
      Records.initial_segment (map Records.probe_key added)
        (map (fun size => (size, None)) sizes) /\
      (sizes <> [] -> added <> []).
Proof.
  induction sizes as [|s rest IH]; intros tests d tests' d' H; cbn [CtxLen.phase1] in H.
  - injection H as <- <-. exists []. rewrite app_nil_r.
    repeat split; [exists []; reflexivity|congruence].
  - pose proof (test_single_context_key s None) as Hkey.
    assert (Hstop : exists added,
               tests ++ [CtxLen.test_single_context ep model s None timeout]
               = tests ++ added /\
               Records.initial_segment (map Records.probe_key added)
                 (map (fun size => (size, None)) (s :: rest)) /\
               (s :: rest <> [] -> added <> [])).
    { eexists [_]. repeat split; [|discriminate].
      exists (map (fun size => (size, None)) rest). cbn [map app]. rewrite Hkey.
      reflexivity. }
    destruct (CtxLen.test_single_context ep model s None timeout)
      as [tgt R nc t ec tr|tgt nc err].
    + destruct tr; cbn [negb] in H.
      * injection H as <- <-. exact Hstop.
      * destruct (IH _ _ _ _ H) as (added & -> & (rest' & Hseg) & _).
        eexists (_ :: added). split; [rewrite <- app_assoc; reflexivity|].
        split; [|discriminate]. exists rest'. cbn [map app]. rewrite Hkey, Hseg.
        reflexivity.
    + injection H as <- <-. exact Hstop.
Qed.

Lemma phase2_layout windows :
  Forall Reference.in_range windows ->
  forall st st',
    CtxLen.phase2 ep model timeout windows st = inr st' ->
    exists added,
      CtxLen.ext_tests st' = CtxLen.ext_tests st ++ added /\
      Records.initial_segment (map Records.probe_key added)
        (map (fun w => (9 * w / 10, Some w)) windows) /\
      (windows <> [] -> added <> []).
Proof.
  induction windows as [|w rest IH]; intros Hall st st' H; cbn [CtxLen.phase2] in H.
  - injection H as <-. exists []. rewrite app_nil_r.
    repeat split; [exists []; reflexivity|congruence].
  - inversion Hall as [|x l Hw Hrest]; subst.
    rewrite int_mul_float_in_range in H by assumption. cbn [Py.bind] in H.
    rewrite int_of_mul_0_9 in H by assumption. cbn [Py.bind] in H.
    pose proof (test_single_context_key (9 * w / 10) (Some w)) as Hkey.
    set (result := CtxLen.test_single_context ep model (9 * w / 10) (Some w) timeout) in *.
    assert (Hstop : forall m b,
               exists added,
                 CtxLen.ext_tests
                   {| CtxLen.ext_tests := CtxLen.ext_tests st ++ [result];
                      CtxLen.max_with_numctx := m; CtxLen.best_numctx := b |}
                 = CtxLen.ext_tests st ++ added /\
                 Records.initial_segment (map Records.probe_key added)
                   (map (fun w => (9 * w / 10, Some w)) (w :: rest)) /\
                 (w :: rest <> [] -> added <> [])).
    { intros. exists [result]. repeat split; [|discriminate].
      exists (map (fun w => (9 * w / 10, Some w)) rest). cbn [map app]. rewrite Hkey.
      reflexivity. }
    assert (Hgo : forall m b,
               CtxLen.phase2 ep model timeout rest
                 {| CtxLen.ext_tests := CtxLen.ext_tests st ++ [result];
                    CtxLen.max_with_numctx := m; CtxLen.best_numctx := b |} = inr st' ->
               exists added,
                 CtxLen.ext_tests st' = CtxLen.ext_tests st ++ added /\
                 Records.initial_segment (map Records.probe_key added)
                   (map (fun w => (9 * w / 10, Some w)) (w :: rest)) /\
                 (w :: rest <> [] -> added <> [])).
    { intros m b Hrun. apply (IH Hrest) in Hrun.
      destruct Hrun as (added & -> & (rest' & Hseg) & _).
      cbn [CtxLen.ext_tests]. exists (result :: added).
      split; [rewrite <- app_assoc; reflexivity|]. split; [|discriminate].
      exists rest'. cbn [map app]. rewrite Hkey, Hseg. reflexivity. }
    clearbody result.
    destruct result as [tgt R nc t ec tr|tgt nc err].
    + destruct (CtxLen.max_with_numctx st <? t); [eauto|].
      destruct (Py.int_mul_float (CtxLen.max_with_numctx st) F64.f1_1)
        as [e|limit]; cbn [Py.bind] in H; [discriminate|].
      destruct (F64.Z_leb t limit); [|eauto].
      injection H as <-. apply Hstop.
    + injection H as <-. apply Hstop.
Qed.

End Layout.

Lemma num_ctx_values_in_range : Forall Reference.in_range CtxLen.num_ctx_values.
Proof. repeat constructor; discriminate. Qed.

(** X14. The test records of a result of [find_max_context] are the
    records of the default-window probes followed by those of the window
    probes, at least one of each: the first target the sizes of
    [test_sizes] in order without a window, the second the windows of
    [num_ctx_values] in order, each with a prompt targeting nine tenths of
    its window. *)
Theorem tests_layout :
  forall (ep : Http.endpoint) (model : string) (timeout : Z) (r : CtxLen.results),
    CtxLen.find_max_context ep model timeout = inr r ->
    exists default_probes window_probes,
      CtxLen.tests r = default_probes ++ window_probes /\
      default_probes <> [] /\ window_probes <> [] /\
      Records.initial_segment (map Records.probe_key default_probes)
        (map (fun size => (size, None)) CtxLen.test_sizes) /\
      Records.initial_segment (map Records.probe_key window_probes)
        (map (fun w => (9 * w / 10, Some w)) CtxLen.num_ctx_values).
Proof.
  intros ep model timeout r. unfold CtxLen.find_max_context.
  destruct (CtxLen.phase1 ep model timeout CtxLen.test_sizes [] 0)
    as [tests1 default_max] eqn:E1.
  destruct (CtxLen.phase2 _ _ _ _ _) as [e|st] eqn:E2; cbn [Py.bind]; [discriminate|].
  destruct (Py.int_mul_float _ F64.f0_8) as [e|scaled]; cbn [Py.bind]; [discriminate|].
  destruct (Py.int_of_float scaled) as [e|rec]; cbn [Py.bind Py.ret]; [discriminate|].
  intros H. injection H as <-. cbn [CtxLen.tests].
  destruct (phase1_layout ep model timeout _ _ _ _ _ E1) as (added1 & Hadd1 & Hseg1 & Hne1).
  destruct (phase2_layout ep model timeout _ num_ctx_values_in_range _ _ E2)
    as (added2 & Hadd2 & Hseg2 & Hne2).
  cbn [app] in Hadd1. subst tests1. cbn [CtxLen.ext_tests] in Hadd2.
  exists added1, added2. repeat split; try assumption.
  - apply Hne1. discriminate.
  - apply Hne2. discriminate.
Qed.

Lemma tests_layout_witness :
  exists r,
    CtxLen.find_max_context Scenarios.ep_m1 "m1" 180 = inr r /\
    exists default_probes window_probes,
      CtxLen.tests r = default_probes ++ window_probes /\
      default_probes <> [] /\ window_probes <> [] /\
      Records.initial_segment (map Records.probe_key default_probes)
        (map (fun size => (size, None)) CtxLen.test_sizes) /\
      Records.initial_segment (map Records.probe_key window_probes)
        (map (fun w => (9 * w / 10, Some w)) CtxLen.num_ctx_values).
Proof.
  eexists. split.
  - vm_compute. reflexivity.
  - apply (tests_layout Scenarios.ep_m1 "m1"%string 180).
    vm_compute. reflexivity.
Defined.

Section CtxLenTotality.
  Variable ep : Http.endpoint.
  Hypothesis Hcounts : Records.counts_in_range ep.
  Variables (model : string) (timeout : Z).

Lemma ctxlen_test_single_context_count target nc tgt R nc' t ec tr :
  CtxLen.test_single_context ep model target nc timeout
    = CtxLen.Succeeded tgt R nc' t ec tr ->
  Reference.in_range t.
Proof.
  unfold CtxLen.test_single_context.
  destruct (ep _) as [e|resp] eqn:Eep; cbn [Py.bind].
  { destruct (Py.is_timeout e); discriminate. }
  destruct (Http.status_code resp =? 200); [|discriminate].
  destruct (Http.json resp) as [e|data] eqn:Ejs; cbn [Py.bind].
  { destruct (Py.is_timeout e); discriminate. }
  destruct (Py.int_mul_float _ F64.f0_9) as [e|limit]; cbn [Py.bind Py.ret].
  { destruct (Py.is_timeout e); discriminate. }
  destruct (_ && _); cbn [Py.raise Py.is_timeout]; [discriminate|].
  intros H. injection H as _ _ _ <- _ _. exact (proj1 (Hcounts _ _ _ Eep Ejs)).
Qed.

Lemma phase1_range sizes :
  forall tests d tests' d',
    CtxLen.phase1 ep model timeout sizes tests d = (tests', d') ->
    Reference.in_range d -> Reference.in_range d'.
Proof.
  induction sizes as [|s rest IH]; intros tests d tests' d' H Hd; cbn [CtxLen.phase1] in H.
  - injection H as _ <-. assumption.
  - destruct (CtxLen.test_single_context ep model s None timeout)
      as [tgt R nc t ec tr|tgt nc err] eqn:Et.
    + destruct tr; cbn [negb] in H.
      * injection H as _ <-. assumption.
      * apply (IH _ _ _ _ H). exact (ctxlen_test_single_context_count _ _ _ _ _ _ _ _ Et).
    + injection H as _ <-. assumption.
Qed.

Lemma phase2_total windows :
  Forall Reference.in_range windows ->
  forall st,
    Reference.in_range (CtxLen.max_with_numctx st) ->
    exists st',
      CtxLen.phase2 ep model timeout windows st = inr st' /\
      Reference.in_range (CtxLen.max_with_numctx st').
Proof.
  induction windows as [|w rest IH]; intros Hall st Hmax; cbn [CtxLen.phase2].
  - exists st. split; [reflexivity|assumption].
  - inversion Hall as [|x l Hw Hrest]; subst.
    rewrite int_mul_float_in_range by assumption. cbn [Py.bind].
    rewrite int_of_mul_0_9 by assumption. cbn [Py.bind].
    destruct (CtxLen.test_single_context ep model (9 * w / 10) (Some w) timeout)
      as [tgt R nc t ec tr|tgt nc err] eqn:Et.
    + pose proof (ctxlen_test_single_context_count _ _ _ _ _ _ _ _ Et) as Ht.
      destruct (CtxLen.max_with_numctx st <? t).
      * apply IH; assumption.
      * rewrite int_mul_float_in_range by assumption. cbn [Py.bind].
        destruct (F64.Z_leb t _).
        -- eexists. split; [reflexivity|assumption].
        -- apply IH; assumption.
    + eexists. split; [reflexivity|assumption].
Qed.

End CtxLenTotality.

(** X15. Against an endpoint whose counters all lie between 0 and
    [2 ^ 48], [find_max_context] returns a result, whose default and
    maximum contexts lie in that range. *)
Theorem find_max_context_returns_in_range :
  forall (ep : Http.endpoint) (model : string) (timeout : Z),
    Records.counts_in_range ep ->
    exists r,
      CtxLen.find_max_context ep model timeout = inr r /\
      Reference.in_range (CtxLen.default_context r) /\
      Reference.in_range (CtxLen.max_context_with_num_ctx r).
Proof.
  intros ep model timeout Hc. unfold CtxLen.find_max_context.
  destruct (CtxLen.phase1 ep model timeout CtxLen.test_sizes [] 0)
    as [tests1 default_max] eqn:E1.
  assert (Hd : Reference.in_range default_max).
  { apply (phase1_range ep Hc model timeout _ _ _ _ _ E1). split; [lia|reflexivity]. }
  destruct (phase2_total ep Hc model timeout _ num_ctx_values_in_range
              {| CtxLen.ext_tests := tests1; CtxLen.max_with_numctx := default_max;
                 CtxLen.best_numctx := None |} Hd) as (st & -> & Hmax).
  cbn [Py.bind]. rewrite int_mul_float_in_range by assumption. cbn [Py.bind].
  rewrite int_of_mul_0_8 by assumption. cbn [Py.bind Py.ret].
  eexists. split; [reflexivity|]. split; assumption.
Qed.

Lemma find_max_context_returns_in_range_witness :
  Records.counts_in_range Records.ep_steady /\
  exists r,
    CtxLen.find_max_context Records.ep_steady "m1" 180 = inr r /\
    Reference.in_range (CtxLen.default_context r) /\
    Reference.in_range (CtxLen.max_context_with_num_ctx r).
Proof.
  split.
  - exact ep_steady_counts_in_range.
  - apply (find_max_context_returns_in_range Records.ep_steady "m1"%string 180).
    exact ep_steady_counts_in_range.
Defined.

(** ** batch_context_test.py *)

Section BatchShape.
  Variable ep : Http.endpoint.
  Variable model : string.

Lemma batch_last_success_snoc tests w t :
  Records.batch_last_success
    (tests ++ [{| Batch.rec_num_ctx := w; Batch.rec_outcome := Batch.Succeeded t |}])
  = (w, t).
Proof. unfold Records.batch_last_success. rewrite rev_unit. reflexivity. Qed.

Lemma batch_last_success_snoc_failed tests w e :
  Records.batch_last_success
    (tests ++ [{| Batch.rec_num_ctx := w; Batch.rec_outcome := Batch.Failed e |}])
  = Records.batch_last_success tests.
Proof. unfold Records.batch_last_success. rewrite rev_unit. reflexivity. Qed.

Lemma batch_search_loop_shape sizes :
  forall tests ms mt tests' ms' mt',
    Batch.search_loop ep model sizes tests ms mt = (tests', ms', mt') ->
    (ms, mt) = Records.batch_last_success tests ->
    (ms', mt') = Records.batch_last_success tests' /\
    (ms' = ms \/ In ms' sizes) /\
    exists added,
      tests' = tests ++ added /\
      Records.initial_segment (map Batch.rec_num_ctx added) sizes /\
      Forall Records.batch_succeeded (removelast added) /\
      (sizes <> [] -> added <> []).
Proof.
  induction sizes as [|ctx rest IH]; intros tests ms mt tests' ms' mt' H Hinv;
    cbn [Batch.search_loop] in H.
  - injection H as <- <- <-. split; [assumption|]. split; [left; reflexivity|].
    exists []. rewrite app_nil_r.
    repeat split; [exists []; reflexivity|constructor|congruence].
  - destruct (Batch.test_context ep model ctx Batch.default_timeout) as [t|err] eqn:Et.
    + destruct (IH _ _ _ _ _ _ H) as (Hlast & Hms & added & -> & (rest' & Hseg) & Hall & _).
      { rewrite batch_last_success_snoc. reflexivity. }
      split; [assumption|]. split.
      { right. destruct Hms as [->|Hin]; [left; reflexivity|right; assumption]. }
      eexists (_ :: added). split; [rewrite <- app_assoc; reflexivity|].
      repeat split.
      * exists rest'. cbn [map app Batch.rec_num_ctx]. rewrite Hseg. reflexivity.
      * destruct added as [|a added']; [constructor|].
        match goal with |- Forall _ (removelast (?x :: a :: added')) =>
          change (removelast (x :: a :: added')) with (x :: removelast (a :: added')) end.
        constructor; [exists t; reflexivity|assumption].
      * discriminate.
    + injection H as <- <- <-. rewrite batch_last_success_snoc_failed.
      split; [assumption|]. split; [left; reflexivity|].
      eexists [_]. repeat split; [exists rest; reflexivity|constructor|discriminate].
Qed.

Lemma batch_find_max_context_returns :
  exists r,
    Batch.find_max_context ep model = inr r /\
    Batch.model r = model /\
    Batch.tests r <> [] /\
    Records.initial_segment (map Batch.rec_num_ctx (Batch.tests r)) Batch.context_sizes /\
    Forall Records.batch_succeeded (removelast (Batch.tests r)) /\
    (Batch.max_num_ctx r, Batch.max_tokens r) = Records.batch_last_success (Batch.tests r) /\
    (Batch.max_num_ctx r = 0 \/ In (Batch.max_num_ctx r) Batch.context_sizes).
Proof.
  unfold Batch.find_max_context.
  destruct (Batch.search_loop ep model Batch.context_sizes [] 0 0)
    as [[tests ms] mt] eqn:E.
  destruct (batch_search_loop_shape _ _ _ _ _ _ _ E eq_refl)
    as (Hlast & Hms & added & Hadd & Hseg & Hall & Hne).
  cbn [app] in Hadd. subst tests.
  assert (Hr : Reference.in_range ms).
  { destruct Hms as [->|Hin]; [split; [lia|reflexivity]|].
    exact (proj1 (Forall_forall _ _) batch_context_sizes_range _ Hin). }
  rewrite int_mul_float_in_range by assumption. cbn [Py.bind].
  rewrite int_of_mul_0_85 by assumption. cbn [Py.bind Py.ret].
  eexists. split; [reflexivity|].
  cbn [Batch.model Batch.tests Batch.max_num_ctx Batch.max_tokens].
  repeat split; try assumption. apply Hne. discriminate.
Qed.

End BatchShape.

(** X17. [batch_context_test.find_max_context] returns a result for
    every endpoint and model.  Its records are not empty, their windows are
    those of [context_sizes] in order from the first on, every record but
    the last succeeded, [max_num_ctx] and [max_tokens] are the window and
    the count of the last successful record (0 and 0 when the first probe
    failed), and [max_num_ctx] is 0 or one of the windows. *)
Theorem batch_result_from_tests :
  forall (ep : Http.endpoint) (model : string),
  exists r,
    Batch.find_max_context ep model = inr r /\
    Batch.tests r <> [] /\
    Records.initial_segment (map Batch.rec_num_ctx (Batch.tests r)) Batch.context_sizes /\
    Forall Records.batch_succeeded (removelast (Batch.tests r)) /\
    (Batch.max_num_ctx r, Batch.max_tokens r) = Records.batch_last_success (Batch.tests r) /\
    (Batch.max_num_ctx r = 0 \/ In (Batch.max_num_ctx r) Batch.context_sizes).
Proof.
  intros ep model.
  destruct (batch_find_max_context_returns ep model) as (r & H & _ & H1 & H2 & H3 & H4 & H5).
  exists r. repeat split; assumption.
Qed.

Lemma batch_run_models_map ep models :
  forall all_results,
    Batch.run_models ep models all_results
    = all_results ++ map (Batch.run_one ep) models.
Proof.
  induction models as [|m rest IH]; intros acc; cbn [Batch.run_models map].
  - rewrite app_nil_r. reflexivity.
  - rewrite IH, <- app_assoc. reflexivity.
Qed.

(** X18. [main] of [batch_context_test.py] records a result for every
    model, in the order of the arguments and under the model's name, and
    never an error entry; without arguments the models are the six of the
    default list. *)
Theorem batch_main_never_records_an_error :
  forall (ep : Http.endpoint) (argv : list string),
  exists results,
    Batch.main ep argv = map Batch.Tested results /\
    map Batch.model results
    = match argv with [] => Batch.default_models | _ => argv end.
Proof.
  intros ep argv. unfold Batch.main. rewrite batch_run_models_map. cbn [app].
  generalize (match argv with [] => Batch.default_models | _ => argv end).
  intros models. induction models as [|m rest IH].
  - exists []. split; reflexivity.
  - destruct IH as (results & Hres & Hmod).
    destruct (batch_find_max_context_returns ep m) as (r & Hr & Hm & _).
    exists (r :: results). cbn [map]. rewrite Hres, Hmod, Hm. split; [|reflexivity].
    f_equal. unfold Batch.run_one. rewrite Hr. reflexivity.
Qed.
